(** * The normalize stage builder of the engine (stageBuilderNormalize.cpp)

    A shallow embedding of [normalizeMap], [normalizeCheck],
    [normalizeConditionalMap] and [stageBuilderNormalize], of the documents
    they read, of the exceptions they throw and of the transformers
    (lifters) they return, followed by the properties of the stage.

    Conventions.
    - A C++ function that may throw returns a [Result]; a [try]/[catch]
      block is [tryCatch]; [std::throw_with_nested] records the exception
      being handled (if any) as the nested cause of the new one.
    - [WAZUH_LOG_ERROR] only logs: it is not part of the embedding.
    - [Registry::getBuilder] is declared in registry.hpp: the builders are
      developed against an arbitrary registry, a variable of the section. *)

From Stdlib Require Import ZArith Ascii String DecimalString Lia.
From stdpp Require Import base list strings.

Set Warnings "-register-all".

(** ** Documents (rapidjson values) *)

(** [base::DocumentValue]. An object is the sequence of its members, in
    order and with possible repetitions of a name. An array carries the
    capacity of its storage next to its elements: rapidjson exposes both
    ([Capacity()] and [Size()]), and [Size() <= Capacity()] always. *)
Inductive DocumentValue : Type :=
| JNull
| JFalse
| JTrue
| JObject (members : list (string * DocumentValue))
| JArray (capacity : nat) (elements : list DocumentValue)
| JString (s : string)
| JNumber (n : Z).

(** [rapidjson::Type], as the integer [GetType()] is printed as. *)
Definition GetType (v : DocumentValue) : nat :=
  match v with
  | JNull => 0
  | JFalse => 1
  | JTrue => 2
  | JObject _ => 3
  | JArray _ _ => 4
  | JString _ => 5
  | JNumber _ => 6
  end.

Definition IsObject (v : DocumentValue) : bool :=
  match v with JObject _ => true | _ => false end.

Definition IsArray (v : DocumentValue) : bool :=
  match v with JArray _ _ => true | _ => false end.

Definition Members (v : DocumentValue) : list (string * DocumentValue) :=
  match v with JObject ms => ms | _ => [] end.

Definition MemberCount (v : DocumentValue) : nat := length (Members v).

Definition Capacity (v : DocumentValue) : nat :=
  match v with JArray c _ => c | _ => 0 end.

Definition Elements (v : DocumentValue) : list DocumentValue :=
  match v with JArray _ es => es | _ => [] end.

Definition Size (v : DocumentValue) : nat := length (Elements v).

(** [FindMember]: the first member of that name. *)
Fixpoint FindMember (ms : list (string * DocumentValue)) (name : string)
  : option DocumentValue :=
  match ms with
  | [] => None
  | (k, v) :: rest => if String.eqb k name then Some v else FindMember rest name
  end.

Definition HasMember (v : DocumentValue) (name : string) : bool :=
  match FindMember (Members v) name with Some _ => true | None => false end.

(** [v[name]]. The builders read a member only after [HasMember]; for an
    absent name rapidjson hands out its null value. *)
Definition member (v : DocumentValue) (name : string) : DocumentValue :=
  match FindMember (Members v) name with Some x => x | None => JNull end.

(** A value as a parser or a deep copy produces it: no spare capacity.
    In general only [Size() <= Capacity()] holds. *)
Fixpoint wellFormed (v : DocumentValue) : bool :=
  match v with
  | JObject ms =>
      (fix all (l : list (string * DocumentValue)) : bool :=
         match l with
         | [] => true
         | (_, x) :: r => wellFormed x && all r
         end) ms
  | JArray c es =>
      (length es <=? c) &&
      (fix all (l : list DocumentValue) : bool :=
         match l with
         | [] => true
         | x :: r => wellFormed x && all r
         end) es
  | _ => true
  end.

(** The copy constructor of a value with an allocator (a deep copy): the
    members and the elements are copied one by one, and the storage of a
    copied array is allocated for its elements exactly, so that its
    capacity is its size. *)
Fixpoint deepCopy (v : DocumentValue) : DocumentValue :=
  match v with
  | JObject ms =>
      JObject
        ((fix copyMembers (l : list (string * DocumentValue)) :=
            match l with
            | [] => []
            | (k, x) :: r => (k, deepCopy x) :: copyMembers r
            end) ms)
  | JArray _ es =>
      JArray (length es)
        ((fix copyElements (l : list DocumentValue) :=
            match l with
            | [] => []
            | x :: r => deepCopy x :: copyElements r
            end) es)
  | _ => v
  end.

(** ** Exceptions *)

Inductive ExceptionClass : Type :=
| InvalidArgument        (* std::invalid_argument *)
| RuntimeError           (* std::runtime_error *)
| BadVariantAccess       (* std::bad_variant_access, from std::get *)
| OtherException (name : string).

(** An exception with its [what()] and, when it was thrown by
    [std::throw_with_nested] while another one was being handled, that one. *)
Inductive Exception : Type :=
| Exc (cls : ExceptionClass) (msg : string) (cause : option Exception).

Definition class (e : Exception) : ExceptionClass :=
  match e with Exc c _ _ => c end.
Definition what (e : Exception) : string :=
  match e with Exc _ m _ => m end.
Definition nested (e : Exception) : option Exception :=
  match e with Exc _ _ n => n end.

(** The messages of an exception and of its nested causes, outermost first. *)
Fixpoint whatChain (e : Exception) : list string :=
  match e with
  | Exc _ m None => [m]
  | Exc _ m (Some inner) => m :: whatChain inner
  end.

Inductive Result (A : Type) : Type :=
| Returns (a : A)
| Throws (e : Exception).
Arguments Returns {A} a.
Arguments Throws {A} e.

Definition bind {A B : Type} (r : Result A) (k : A -> Result B) : Result B :=
  match r with
  | Returns a => k a
  | Throws e => Throws e
  end.

Notation "'call' x <- r ; k" := (bind r (fun x => k))
  (at level 10, x name, r at level 100, k at level 200).

(** [try { body } catch (std::exception &e) { handler e }] *)
Definition tryCatch {A : Type} (body : Result A) (handler : Exception -> Result A)
  : Result A :=
  match body with
  | Returns a => Returns a
  | Throws e => handler e
  end.

(** [std::throw_with_nested(E(msg))]: [current] is the exception in flight,
    [None] outside of a handler. *)
Definition throwWithNested {A : Type} (current : option Exception)
    (c : ExceptionClass) (msg : string) : Result A :=
  Throws (Exc c msg current).

Definition succeeds {A : Type} (r : Result A) : bool :=
  match r with Returns _ => true | Throws _ => false end.

(** ** Events, streams and transformers *)

(** A document in flight is shared and mutated in place: an event is the
    handle of a document in a store, and a transformer that mutates the
    event changes the store. *)
Definition Event : Type := nat.
Definition Store : Type := list DocumentValue.

(** What an operation built outside of this file does with one event: the
    store it leaves and the events it emits downstream. *)
Definition Operation : Type := Event -> Store -> Store * list Event.

(** [base::Lifter], a function from observable to observable, as the
    closures that make it up.
    - [LOperation] is a transformer returned by an operation builder of the
      registry.
    - [LChain] and [LBroadcast] are the transformers returned by the
      combinators (modelled from the spec, see [chainOf] and [fanOut]).
    - [LPublish] is [[](base::Observable in) { return in; }].
    - [LFilterAll slot] is
      [[&op](base::Observable in) { return op(in).filter([](auto) { return false; }); }]:
      the closure holds no transformer of its own, [op] is a reference to
      the element [slot] of the vector [normalizeOps], read when the
      closure is called. The assignment that stores the closure in this
      element destroys the transformer the element held. *)
Inductive Lifter : Type :=
| LOperation (f : Operation)
| LChain (ops : list Lifter)
| LBroadcast (ops : list Lifter)
| LPublish
| LFilterAll (slot : nat).

(** The outcome of running a transformer: it ran, or the run did not come
    to an end within the calls allowed, or it read through a reference to
    a vector element that no longer exists. *)
Inductive Run (A : Type) : Type :=
| Ran (a : A)
| NoFuel
| Dangling.
Arguments Ran {A} a.
Arguments NoFuel {A}.
Arguments Dangling {A}.

Definition andThen {A B : Type} (r : Run A) (k : A -> Run B) : Run B :=
  match r with
  | Ran a => k a
  | NoFuel => NoFuel
  | Dangling => Dangling
  end.

Section Streams.

(** What one event does. *)
Variable step : Event -> Store -> Run (Store * list Event).

(** A stream of events delivered one after the other (documents go
    through a stage one at a time): the events emitted, in order. *)
Fixpoint deliver (es : list Event) (st : Store) : Run (Store * list Event) :=
  match es with
  | [] => Ran (st, [])
  | x :: es' =>
      andThen (step x st) (fun r1 =>
      andThen (deliver es' (fst r1)) (fun r2 =>
      Ran (fst r2, snd r1 ++ snd r2)))
  end.

End Streams.

Section Combinators.

(** How a transformer of the list runs on one event. *)
Variable run : Lifter -> Event -> Store -> Run (Store * list Event).

(** Modelled from the spec: the transformer of combinator.chain (the
    combinator is not in this file) applies its first transformer, then
    feeds the output stream of it into the next one, and so on; an item
    that a transformer drops is gone for all the ones after it. Of an
    empty list it is the identity. *)
Fixpoint chainOf (ops : list Lifter) (es : list Event) (st : Store)
  : Run (Store * list Event) :=
  match ops with
  | [] => Ran (st, es)
  | op :: ops' =>
      andThen (deliver (run op) es st) (fun r => chainOf ops' (snd r) (fst r))
  end.

(** Modelled from the spec: the transformer of combinator.broadcast (the
    combinator is not in this file) subscribes every transformer of the
    list to the same source and emits the union of their outputs. The
    order across branches is left open by the spec; here the branches
    receive the event in the order of the list, which keeps the order of
    the items within each branch. *)
Fixpoint fanOut (ops : list Lifter) (e : Event) (st : Store)
  : Run (Store * list Event) :=
  match ops with
  | [] => Ran (st, [])
  | op :: ops' =>
      andThen (run op e st) (fun r1 =>
      andThen (fanOut ops' e (fst r1)) (fun r2 =>
      Ran (fst r2, snd r1 ++ snd r2)))
  end.

End Combinators.

Section Invoke.

(** How a call through the reference to a vector element is answered. *)
Variable deref : nat -> Event -> Store -> Run (Store * list Event).

(** A transformer applied to its input and given one event; applying it
    and delivering the event are one step here. The closure of the stage
    that filters calls [op] through its reference (in the code as soon as
    it is applied to its input) and lets no item of the result pass
    ([filter] with a predicate that is always false). *)
Fixpoint invokeWith (l : Lifter) (e : Event) (st : Store) {struct l}
  : Run (Store * list Event) :=
  match l with
  | LOperation f => Ran (f e st)
  | LChain ops => chainOf invokeWith ops [e] st
  | LBroadcast ops => fanOut invokeWith ops e st
  | LPublish => Ran (st, [e])
  | LFilterAll slot =>
      andThen (deref slot e st) (fun r =>
      Ran (fst r, List.filter (fun _ => false) (snd r)))
  end.

(** A stream of events delivered to a transformer. *)
Definition feedWith (l : Lifter) : list Event -> Store -> Run (Store * list Event) :=
  deliver (invokeWith l).

End Invoke.

(** Calls through references are resolved in [frame], the elements of the
    vector the closures refer to ([None] for a vector that is gone); every
    such call uses up one unit of [fuel]. *)
Fixpoint derefIn (fuel : nat) (frame : option (list Lifter))
    (slot : nat) (e : Event) (st : Store) : Run (Store * list Event) :=
  match frame with
  | None => Dangling
  | Some ops =>
      match ops !! slot with
      | None => Dangling
      | Some l =>
          match fuel with
          | 0 => NoFuel
          | S fuel' => invokeWith (derefIn fuel' frame) l e st
          end
      end
  end.

Definition invoke (fuel : nat) (frame : option (list Lifter))
  : Lifter -> Event -> Store -> Run (Store * list Event) :=
  invokeWith (derefIn fuel frame).

Definition feed (fuel : nat) (frame : option (list Lifter))
  : Lifter -> list Event -> Store -> Run (Store * list Event) :=
  feedWith (derefIn fuel frame).

(** ** The registry and its builders *)

Section Builders.

(** [types::TracerFn]: handed on to the operation builders, never called. *)
Variable TracerFn : Type.

(** A registered builder: [types::OpBuilder] or [types::CombinatorBuilder]. *)
Inductive Builder : Type :=
| OpBuilder (build : DocumentValue -> TracerFn -> Result Lifter)
| CombinatorBuilder (build : list Lifter -> Result Lifter).

(** [std::get<types::OpBuilder>] and [std::get<types::CombinatorBuilder>]. *)
Definition getOpBuilder (b : Builder)
  : Result (DocumentValue -> TracerFn -> Result Lifter) :=
  match b with
  | OpBuilder f => Returns f
  | CombinatorBuilder _ =>
      Throws (Exc BadVariantAccess "std::get: wrong index for variant" None)
  end.

Definition getCombinatorBuilder (b : Builder)
  : Result (list Lifter -> Result Lifter) :=
  match b with
  | CombinatorBuilder f => Returns f
  | OpBuilder _ =>
      Throws (Exc BadVariantAccess "std::get: wrong index for variant" None)
  end.

(** [Registry::getBuilder] *)
Variable getBuilder : string -> Result Builder.

(** [std::get<types::OpBuilder>(Registry::getBuilder(name))(def, tr)] *)
Definition callOpBuilder (name : string) (def : DocumentValue) (tr : TracerFn)
  : Result Lifter :=
  call b <- getBuilder name;
  call build <- getOpBuilder b;
  build def tr.

(** [std::get<types::CombinatorBuilder>(Registry::getBuilder(name))(ops)] *)
Definition callCombinatorBuilder (name : string) (ops : list Lifter)
  : Result Lifter :=
  call b <- getBuilder name;
  call build <- getCombinatorBuilder b;
  build ops.

(** *** Messages *)

Definition dq : string := String "034"%char EmptyString.
Definition quoted (s : string) : string := dq +:+ s +:+ dq.
Definition decimal (n : nat) : string := NilEmpty.string_of_uint (Nat.to_uint n).

Definition msgMapNotObject : string :=
  "Invalid " +:+ quoted "map" +:+ " element, it should be an object.".
Definition msgMapEmpty : string :=
  "Invalid " +:+ quoted "map" +:+ " element, it can not be empty.".
Definition msgCheckNotArray : string :=
  "Invalid " +:+ quoted "check" +:+ " object, it should be an array.".
Definition msgCheckEmpty : string :=
  "Invalid " +:+ quoted "check" +:+ " object, it can not be empty.".
Definition msgBuilding (w : string) : string :=
  "Stage normalize builder encountered exception on building: [" +:+ w +:+ "]".
Definition msgArity (n : nat) : string :=
  "Invalid conditional map configuration, two (2) elements were expected, "
  +:+ quoted "check" +:+ " and " +:+ quoted "map" +:+ ", but got: " +:+ decimal n.
Definition msgConditionalSide (side w : string) : string :=
  "Stage normalize conditional map builder encountered exception on building the "
  +:+ quoted side +:+ " object: [" +:+ w +:+ "].".
Definition msgConditionalBuilding (w : string) : string :=
  "Stage normalize conditional map builder encountered exception on building: ["
  +:+ w +:+ "]".
Definition msgNotArray (t : nat) : string :=
  "Stage normalize builder, expected " +:+ quoted "normalize"
  +:+ " to be an array but got [" +:+ decimal t +:+ "].".
Definition msgNoMap : string :=
  "Stage normalize builder, there is a conditional map object with no "
  +:+ quoted "map" +:+ " element on it.".
Definition msgNotObject (t : nat) : string :=
  "Stage normalize builder, each " +:+ quoted "normalize"
  +:+ " array element should be an object but got [" +:+ decimal t +:+ "].".

(** [catch (std::exception &e) { std::throw_with_nested(std::runtime_error(ctx e.what())) }] *)
Definition rethrow {A : Type} (ctx : string -> string) (e : Exception) : Result A :=
  throwWithNested (Some e) RuntimeError (ctx (what e)).

(** *** normalizeMap *)

(** The loop over the members of the map object: one map operation per
    member, built from a new object that holds a deep copy of this member
    alone ([val] and [key] at lines 62 and 63). *)
Fixpoint normalizeMapMembers (members : list (string * DocumentValue))
    (tr : TracerFn) (mapOps : list Lifter) : Result (list Lifter) :=
  match members with
  | [] => Returns mapOps
  | (name, value) :: rest =>
      call mapOps' <-
        tryCatch
          (let val := deepCopy value in
           let key := name in
           let pairKeyValue := JObject [(key, val)] in
           call op <- callOpBuilder "map" pairKeyValue tr;
           Returns (mapOps ++ [op]))
          (rethrow msgBuilding);
      normalizeMapMembers rest tr mapOps'
  end.

Definition normalizeMap (ref : DocumentValue) (tr : TracerFn) : Result Lifter :=
  if negb (IsObject ref) then
    throwWithNested None InvalidArgument msgMapNotObject
  else if MemberCount ref <=? 0 then
    throwWithNested None InvalidArgument msgMapEmpty
  else
    call mapOps <- normalizeMapMembers (Members ref) tr [];
    tryCatch (callCombinatorBuilder "combinator.chain" mapOps)
             (rethrow msgBuilding).

(** *** normalizeCheck *)

Definition normalizeCheck (ref : DocumentValue) (tr : TracerFn) : Result Lifter :=
  if negb (IsArray ref) then
    throwWithNested None InvalidArgument msgCheckNotArray
  else
    let checkArray := ref in
    if Capacity checkArray <=? 0 then
      throwWithNested None InvalidArgument msgCheckEmpty
    else
      call checkOps <-
        tryCatch
          (call op <- callOpBuilder "check" checkArray tr;
           Returns ([] ++ [op]))
          (rethrow msgBuilding);
      tryCatch (callCombinatorBuilder "combinator.chain" checkOps)
               (rethrow msgBuilding).

(** *** normalizeConditionalMap *)

Definition normalizeConditionalMap (def : DocumentValue) (tr : TracerFn)
  : Result Lifter :=
  if negb (MemberCount def =? 2) then
    throwWithNested None InvalidArgument (msgArity (MemberCount def))
  else
    call ops1 <-
      tryCatch
        (call op <- normalizeCheck (member def "check") tr;
         Returns ([] ++ [op]))
        (rethrow (msgConditionalSide "check"));
    call ops2 <-
      tryCatch
        (call op <- normalizeMap (member def "map") tr;
         Returns (ops1 ++ [op]))
        (rethrow (msgConditionalSide "map"));
    tryCatch (callCombinatorBuilder "combinator.chain" ops2)
             (rethrow msgConditionalBuilding).

(** *** stageBuilderNormalize *)

(** The body of the loop over the array: the branch of one element. *)
Definition normalizeElement (it : DocumentValue) (tr : TracerFn) : Result Lifter :=
  if IsObject it then
    let obj := it in
    if HasMember obj "map" then
      if HasMember obj "check" then
        normalizeConditionalMap obj tr
      else
        normalizeMap (member obj "map") tr
    else
      throwWithNested None InvalidArgument msgNoMap
  else
    throwWithNested None InvalidArgument (msgNotObject (GetType it)).

(** The builder that the body of the loop calls for an element that has a
    map (lines 227 to 234). *)
Definition nestedBuild (it : DocumentValue) (tr : TracerFn) : Result Lifter :=
  if HasMember it "check" then normalizeConditionalMap it tr
  else normalizeMap (member it "map") tr.

(** The loop over the array, which stops at the first exception. *)
Fixpoint normalizeElements (elements : list DocumentValue) (tr : TracerFn)
    (normalizeOps : list Lifter) : Result (list Lifter) :=
  match elements with
  | [] => Returns normalizeOps
  | it :: rest =>
      call op <- normalizeElement it tr;
      normalizeElements rest tr (normalizeOps ++ [op])
  end.

(** [for (auto &op : normalizeOps) { op = [&op](...) {...}; }]: every
    element of the vector is overwritten, in place, by a closure that
    refers to this element. *)
Definition filterAll (normalizeOps : list Lifter) : list Lifter :=
  foldl (fun ops slot => <[slot := LFilterAll slot]> ops)
        normalizeOps (seq 0 (length normalizeOps)).

(** The stage builder, with the elements of the vector [normalizeOps]
    that the broadcast builder is handed (line 279) next to the
    transformer returned. These elements are what the builder receives,
    not where the references of the closures lead: see [afterReturn]. *)
Definition stageBuilderNormalizeFrame (def : DocumentValue) (tr : TracerFn)
  : Result (list Lifter * Lifter) :=
  if negb (IsArray def) then
    throwWithNested None InvalidArgument (msgNotArray (GetType def))
  else
    call normalizeOps <- normalizeElements (Elements def) tr [];
    tryCatch
      (let normalizeOps1 := filterAll normalizeOps in
       let normalizeOps2 := normalizeOps1 ++ [LPublish] in
       call l <- callCombinatorBuilder "combinator.broadcast" normalizeOps2;
       Returns (normalizeOps2, l))
      (rethrow msgBuilding).

Definition stageBuilderNormalize (def : DocumentValue) (tr : TracerFn)
  : Result Lifter :=
  call r <- stageBuilderNormalizeFrame def tr;
  Returns (snd r).

(** What the references of the closures lead to when the transformer that
    the stage builder returned is applied: nothing. [normalizeOps] is a
    local vector, destroyed when stageBuilderNormalize returns; its
    elements may even have moved to other storage before, at the
    [push_back] of line 275. *)
Definition afterReturn : option (list Lifter) := None.

End Builders.

Arguments OpBuilder {TracerFn} build.
Arguments CombinatorBuilder {TracerFn} build.

(** ** Notions used to state the properties *)

(** The shape the stage itself checks: an array of objects that all have a
    member named map. *)
Definition hasMap (it : DocumentValue) : bool :=
  IsObject it && HasMember it "map".

Definition structurallyValid (def : DocumentValue) : bool :=
  IsArray def && forallb hasMap (Elements def).

(** [outer] is [inner] caught and thrown again as a runtime error whose
    message is the context [ctx] around the message of [inner], with
    [inner] as its nested cause. *)
Definition rethrown (ctx : string -> string) (inner outer : Exception) : Prop :=
  outer = Exc RuntimeError (ctx (what inner)) (Some inner).

(** What the builders of this file check of a configuration by
    themselves, the registry left aside: the map of an entry is an object
    with at least one member, the check of a conditional entry is an array
    with storage, a conditional entry has two members, and the stage is an
    array of objects that have a map. *)
Definition okMap (m : DocumentValue) : bool :=
  IsObject m && (0 <? MemberCount m).

Definition okCheck (c : DocumentValue) : bool :=
  IsArray c && (0 <? Capacity c).

Definition okElement (it : DocumentValue) : bool :=
  hasMap it &&
  (if HasMember it "check"
   then (MemberCount it =? 2) && okCheck (member it "check") && okMap (member it "map")
   else okMap (member it "map")).

Definition accepts (def : DocumentValue) : bool :=
  IsArray def && forallb okElement (Elements def).

(** ** A registry, from the interfaces of the collaborators *)

Section SpecRegistry.

Variable TracerFn : Type.

(** The value of a value expression on a document, and whether a
    condition holds on a document: both belong to the map and check
    operations and are left open. *)
Variable evaluate : DocumentValue -> DocumentValue -> DocumentValue.
Variable holds : DocumentValue -> DocumentValue -> bool.

Fixpoint setField (ms : list (string * DocumentValue)) (name : string)
    (v : DocumentValue) : list (string * DocumentValue) :=
  match ms with
  | [] => [(name, v)]
  | (k, x) :: rest =>
      if String.eqb k name then (k, v) :: rest else (k, x) :: setField rest name v
  end.

Definition assign (doc : DocumentValue) (field : string * DocumentValue)
  : DocumentValue :=
  match doc with
  | JObject ms => JObject (setField ms (fst field) (evaluate (snd field) doc))
  | _ => doc
  end.

(** Modelled from the spec: the transformer of the map operation (its
    builder is not in this file). For every input document it sets each
    field to its evaluated value, in place, and emits the same document. *)
Definition mapOperation (config : DocumentValue) : Operation :=
  fun e st =>
    match st !! e with
    | Some doc => (<[e := foldl assign doc (Members config)]> st, [e])
    | None => (st, [e])
    end.

(** Modelled from the spec: the transformer of the check operation (its
    builder is not in this file). It emits the document unchanged if all
    conditions hold, otherwise it emits nothing; it never mutates. *)
Definition checkOperation (config : DocumentValue) : Operation :=
  fun e st =>
    match st !! e with
    | Some doc =>
        if forallb (fun c => holds c doc) (Elements config) then (st, [e]) else (st, [])
    | None => (st, [])
    end.

(** Modelled from the spec: the map builder (not in this file) fails with
    an invalid argument if its configuration is not an object or has zero
    members. *)
Definition opBuilderMap (config : DocumentValue) (tr : TracerFn) : Result Lifter :=
  if IsObject config && (0 <? MemberCount config) then
    Returns (LOperation (mapOperation config))
  else
    Throws (Exc InvalidArgument "map: expected an object with at least one member" None).

(** Modelled from the spec: the check builder (not in this file) fails
    with an invalid argument if its configuration is not an array or is
    empty (has no condition). *)
Definition opBuilderCheck (config : DocumentValue) (tr : TracerFn) : Result Lifter :=
  if IsArray config && (0 <? Size config) then
    Returns (LOperation (checkOperation config))
  else
    Throws (Exc InvalidArgument "check: expected a non-empty array" None).

(** Modelled from the spec: the combinator builders (not in this file)
    do not fail; what their transformers do is in [chainOf] and [fanOut]. *)
Definition combinatorBuilderChain (ops : list Lifter) : Result Lifter :=
  Returns (LChain ops).

Definition combinatorBuilderBroadcast (ops : list Lifter) : Result Lifter :=
  Returns (LBroadcast ops).

(** Modelled from the spec: the registry (not in this file) maps a name
    to an operation builder or to a combinator builder, and a lookup by
    an unknown name fails. *)
Definition specRegistry (name : string) : Result (Builder TracerFn) :=
  if String.eqb name "map" then Returns (OpBuilder opBuilderMap)
  else if String.eqb name "check" then Returns (OpBuilder opBuilderCheck)
  else if String.eqb name "combinator.chain" then
    Returns (CombinatorBuilder combinatorBuilderChain)
  else if String.eqb name "combinator.broadcast" then
    Returns (CombinatorBuilder combinatorBuilderBroadcast)
  else Throws (Exc (OtherException "NotFound") name None).

End SpecRegistry.

(** ** Configurations and documents used as concrete inputs *)

Module Sample.

Definition tracer : unit := tt.

(** Value expressions are literals, and no condition holds. *)
Definition literal (expr doc : DocumentValue) : DocumentValue := expr.
Definition never (cond doc : DocumentValue) : bool := false.

Definition registry : string -> Result (Builder unit) :=
  specRegistry unit literal never.

(** A registry whose check builder takes any array (it does not count
    the conditions); the other builders are those of [registry]. *)
Definition lenientRegistry (name : string) : Result (Builder unit) :=
  if String.eqb name "check" then
    Returns (OpBuilder (fun config _ =>
               Returns (LOperation (checkOperation never config))))
  else registry name.

(** A registry whose builders take every configuration. *)
Definition totalRegistry (name : string) : Result (Builder unit) :=
  if String.eqb name "map" then
    Returns (OpBuilder (fun config _ =>
               Returns (LOperation (mapOperation literal config))))
  else lenientRegistry name.

(** A registry in which the broadcast combinator is not registered. *)
Definition noBroadcastRegistry (name : string) : Result (Builder unit) :=
  if String.eqb name "combinator.broadcast" then
    Throws (Exc (OtherException "NotFound") name None)
  else registry name.

(** A registry in which the name of the map operation is bound to a
    combinator builder. *)
Definition mapAsCombinatorRegistry (name : string) : Result (Builder unit) :=
  if String.eqb name "map" then Returns (CombinatorBuilder combinatorBuilderChain)
  else registry name.

(** A registry whose map builder refuses a field whose value is null. *)
Definition pickyRegistry (name : string) : Result (Builder unit) :=
  if String.eqb name "map" then
    Returns (OpBuilder (fun config tr =>
               match Members config with
               | [(_, JNull)] => Throws (Exc InvalidArgument "map: null value" None)
               | _ => opBuilderMap unit literal config tr
               end))
  else registry name.

(** [{"a": 1, "n": null, "b": 2}] *)
Definition mapWithNull : DocumentValue :=
  JObject [("a", JNumber 1); ("n", JNull); ("b", JNumber 2)].

(** [{"check": [x], "map": {"a": 1, "n": null, "b": 2}}] *)
Definition conditionalWithNull : DocumentValue :=
  JObject [("check", JArray 1 [JString "x"]); ("map", mapWithNull)].

(** [{"tags": ["t"]}], the array with room for four elements. *)
Definition mapWithSpare : DocumentValue :=
  JObject [("tags", JArray 4 [JString "t"])].

(** [{"check": 7, "map": 8}]: neither half has the type it should. *)
Definition conditionalBothWrong : DocumentValue :=
  JObject [("check", JNumber 7); ("map", JNumber 8)].

(** [{"a": 1}] and [{"b": 2}] *)
Definition mapA : DocumentValue := JObject [("a", JNumber 1)].
Definition mapB : DocumentValue := JObject [("b", JNumber 2)].

(** A check array of one condition, as a parser builds it. *)
Definition checkX : DocumentValue := JArray 1 [JString "x"].

(** [{"map": {"a": 1}}] *)
Definition plainA : DocumentValue := JObject [("map", mapA)].
Definition plainB : DocumentValue := JObject [("map", mapB)].

(** [{"check": [x], "map": {"b": 2}}] *)
Definition conditionalB : DocumentValue :=
  JObject [("check", checkX); ("map", mapB)].

(** [{"map": {}}] *)
Definition plainEmptyMap : DocumentValue := JObject [("map", JObject [])].

(** [{"check": [x], "map": {}}] *)
Definition conditionalEmptyMap : DocumentValue :=
  JObject [("check", checkX); ("map", JObject [])].

(** [{"check": [x], "map": {"b": 2}, "name": "n"}] *)
Definition conditionalThree : DocumentValue :=
  JObject [("check", checkX); ("map", mapB); ("name", JString "n")].

(** [{"map": {"a": 1}, "name": "n", "enabled": true}] *)
Definition plainWithExtras : DocumentValue :=
  JObject [("map", mapA); ("name", JString "n"); ("enabled", JTrue)].

(** [{"check": [x]}] *)
Definition checkOnly : DocumentValue := JObject [("check", checkX)].

(** What normalizeMap and normalizeCheck build for [mapA], [mapB] and
    [checkX] with [registry]. *)
Definition branchA : Lifter :=
  LChain [LOperation (mapOperation literal (JObject [("a", JNumber 1)]))].
Definition branchB : Lifter :=
  LChain [LOperation (mapOperation literal (JObject [("b", JNumber 2)]))].
Definition branchX : Lifter :=
  LChain [LOperation (checkOperation never checkX)].

(** An array of no element whose storage was reserved (or whose
    elements were removed): [Size() = 0], [Capacity() = 16]. *)
Definition reservedEmpty : DocumentValue := JArray 16 [].

(** [{"check": <reservedEmpty>, "map": {"b": 2}}] *)
Definition conditionalReserved : DocumentValue :=
  JObject [("check", reservedEmpty); ("map", mapB)].

Definition array (es : list DocumentValue) : DocumentValue :=
  JArray (length es) es.

End Sample.

(** ** The loop that overwrites the vector *)

Section FilterAll.

Lemma filterAll_prefix (n : nat) (ops : list Lifter) :
  n <= length ops ->
  foldl (fun v slot => <[slot := LFilterAll slot]> v) ops (seq 0 n)
  = (LFilterAll <$> seq 0 n) ++ drop n ops.
Proof.
  induction n as [|n IH]; intros Hn.
  - simpl. by rewrite drop_0.
  - rewrite seq_S, foldl_app, fmap_app. simpl.
    rewrite IH by lia.
    destruct (drop n ops) as [|x rest] eqn:Hd.
    + apply (f_equal length) in Hd. rewrite length_drop in Hd. simpl in Hd. lia.
    + assert (Hlen : length (LFilterAll <$> seq 0 n) = n)
        by (by rewrite length_fmap, length_seq).
      rewrite insert_app_r_alt by lia.
      rewrite Hlen, Nat.sub_diag. simpl.
      rewrite <- app_assoc. simpl. do 2 f_equal.
      replace (S n) with (n + 1) by lia.
      rewrite <- drop_drop, Hd. reflexivity.
Qed.

(** After the loop, the element [i] of the vector is the closure that
    refers to the element [i], whatever was there before. *)
Lemma filterAll_eq (ops : list Lifter) :
  filterAll ops = LFilterAll <$> seq 0 (length ops).
Proof.
  unfold filterAll. rewrite filterAll_prefix by lia.
  rewrite drop_all. apply app_nil_r.
Qed.

End FilterAll.

(** ** The loop over the configuration array *)

Section Loop.

Variable TracerFn : Type.
Variable getBuilder : string -> Result (Builder TracerFn).
Variable tr : TracerFn.

Local Abbreviation element it := (normalizeElement TracerFn getBuilder it tr).
Local Abbreviation loop es acc := (normalizeElements TracerFn getBuilder es tr acc).

Lemma normalizeElements_acc (es : list DocumentValue) (acc : list Lifter) :
  loop es acc = call ops <- loop es []; Returns (acc ++ ops).
Proof.
  revert acc. induction es as [|it es IH]; intros acc; simpl.
  - by rewrite app_nil_r.
  - destruct (normalizeElement _ _ it tr) as [op|e]; simpl; [|done].
    rewrite (IH (acc ++ [op])), (IH [op]).
    destruct (normalizeElements _ _ es tr []) as [ops|e]; simpl; [|done].
    by rewrite <- app_assoc.
Qed.

Lemma normalizeElements_cons (it : DocumentValue) (es : list DocumentValue) :
  loop (it :: es) [] =
    call op <- element it; call ops <- loop es []; Returns (op :: ops).
Proof.
  simpl. destruct (normalizeElement _ _ it tr) as [op|e]; simpl; [|done].
  by rewrite normalizeElements_acc.
Qed.

(** The loop returns exactly when every element builds, with the
    branches in the order of the elements. *)
Lemma normalizeElements_Returns (es : list DocumentValue) (ops : list Lifter) :
  loop es [] = Returns ops <->
  Forall2 (fun it op => element it = Returns op) es ops.
Proof.
  revert ops. induction es as [|it es IH]; intros ops.
  - simpl. split.
    + intros [= <-]. constructor.
    + intros H. by inversion H.
  - rewrite normalizeElements_cons. split.
    + intros H. destruct (normalizeElement _ _ it tr) as [op|e] eqn:Hit;
        simpl in H; [|done].
      destruct (normalizeElements _ _ es tr []) as [ops'|e] eqn:Hes;
        simpl in H; [|done].
      injection H as <-. constructor; [done|]. by apply IH.
    + intros H. inversion H as [|? op ? ops' Hit Hes]; subst.
      simpl in Hit. rewrite Hit. simpl.
      apply IH in Hes. simpl in Hes. by rewrite Hes.
Qed.

(** The loop throws what the first element that does not build throws. *)
Lemma normalizeElements_Throws (pre post : list DocumentValue)
    (it : DocumentValue) (e : Exception) (acc : list Lifter) :
  Forall (fun x => succeeds (element x) = true) pre ->
  element it = Throws e ->
  loop (pre ++ it :: post) acc = Throws e.
Proof.
  intros Hpre Hit. revert acc.
  induction Hpre as [|x pre Hx _ IH]; intros acc; simpl.
  - simpl in Hit. by rewrite Hit.
  - simpl in Hx. destruct (normalizeElement _ _ x tr); [|done]. simpl. apply IH.
Qed.

Lemma normalizeElements_Throws_inv (es : list DocumentValue)
    (e : Exception) (acc : list Lifter) :
  loop es acc = Throws e ->
  exists pre it post,
    es = pre ++ it :: post /\
    Forall (fun x => succeeds (element x) = true) pre /\
    element it = Throws e.
Proof.
  revert acc. induction es as [|x es IH]; intros acc H; simpl in H; [done|].
  destruct (normalizeElement _ _ x tr) as [op|e'] eqn:Hx; simpl in H.
  - destruct (IH _ H) as (pre & it & post & -> & Hpre & Hit).
    exists (x :: pre), it, post. split; [done|]. split; [|done].
    constructor; [|done]. simpl. by rewrite Hx.
  - injection H as ->. exists [], x, es. repeat split; [constructor|done].
Qed.

Lemma normalizeElements_succeeds (es : list DocumentValue) :
  succeeds (loop es []) = true <->
  Forall (fun x => succeeds (element x) = true) es.
Proof.
  split.
  - destruct (normalizeElements _ _ es tr []) as [ops|e] eqn:H; [|done].
    intros _. apply normalizeElements_Returns in H.
    induction H as [|???? Hx]; constructor; [|done].
    simpl in *. by rewrite Hx.
  - intros H. destruct (normalizeElements _ _ es tr []) as [ops|e] eqn:Hl; [done|].
    apply normalizeElements_Throws_inv in Hl as (pre & it & post & -> & _ & Hit).
    apply Forall_app in H as [_ H]. inversion H as [|?? Hs]; subst.
    simpl in Hs, Hit. by rewrite Hit in Hs.
Qed.

(** Elements that build alike can be exchanged. *)
Lemma normalizeElements_ext (es es' : list DocumentValue) (acc : list Lifter) :
  Forall2 (fun x y => element x = element y) es es' ->
  loop es acc = loop es' acc.
Proof.
  intros H. revert acc. induction H as [|x y es es' Hxy _ IH]; intros acc; [done|].
  simpl in *. rewrite Hxy. destruct (normalizeElement _ _ y tr); simpl; [|done].
  apply IH.
Qed.

(** The stage in terms of its three steps. *)
Lemma stageBuilderNormalize_unfold (def : DocumentValue) :
  stageBuilderNormalize TracerFn getBuilder def tr =
    if negb (IsArray def) then
      Throws (Exc InvalidArgument (msgNotArray (GetType def)) None)
    else
      call ops <- loop (Elements def) [];
      tryCatch
        (callCombinatorBuilder TracerFn getBuilder "combinator.broadcast"
           (filterAll ops ++ [LPublish]))
        (rethrow msgBuilding).
Proof.
  unfold stageBuilderNormalize, stageBuilderNormalizeFrame.
  destruct (negb (IsArray def)); [done|].
  destruct (normalizeElements _ _ _ tr []) as [ops|e]; simpl; [|done].
  destruct (callCombinatorBuilder _ _ _ _); done.
Qed.

End Loop.


(** ** Which configurations the stage refuses *)

Section StageErrors.

Variable TracerFn : Type.
Variable getBuilder : string -> Result (Builder TracerFn).
Variable tr : TracerFn.

Local Abbreviation element it := (normalizeElement TracerFn getBuilder it tr).
Local Abbreviation loop es acc := (normalizeElements TracerFn getBuilder es tr acc).
Local Abbreviation stage def := (stageBuilderNormalize TracerFn getBuilder def tr).
Local Abbreviation broadcast :=
  (callCombinatorBuilder TracerFn getBuilder "combinator.broadcast").
Local Abbreviation nestedBuild it := (nestedBuild TracerFn getBuilder it tr).

Lemma normalizeElement_hasMap (it : DocumentValue) :
  hasMap it = true -> element it = nestedBuild it.
Proof.
  unfold hasMap, normalizeElement, nestedBuild.
  intros [Ho Hm]%andb_prop. by rewrite Ho, Hm.
Qed.

Lemma normalizeElement_noMap (it : DocumentValue) :
  hasMap it = false ->
  exists msg, element it = Throws (Exc InvalidArgument msg None).
Proof.
  unfold hasMap, normalizeElement. intros H.
  destruct (IsObject it); simpl in H.
  - rewrite H. by eexists.
  - by eexists.
Qed.

Lemma stage_Throws_inv (def : DocumentValue) (e : Exception) :
  stage def = Throws e ->
  (IsArray def = false /\ e = Exc InvalidArgument (msgNotArray (GetType def)) None)
  \/ (IsArray def = true /\
      exists pre it post,
        Elements def = pre ++ it :: post /\
        Forall (fun x => succeeds (element x) = true) pre /\
        element it = Throws e)
  \/ (IsArray def = true /\
      exists ops inner,
        loop (Elements def) [] = Returns ops /\
        broadcast (filterAll ops ++ [LPublish]) = Throws inner /\
        e = Exc RuntimeError (msgBuilding (what inner)) (Some inner)).
Proof.
  rewrite stageBuilderNormalize_unfold.
  destruct (IsArray def); simpl.
  - destruct (normalizeElements _ _ _ tr []) as [ops|e'] eqn:Hl; simpl.
    + destruct (callCombinatorBuilder _ _ _ _) as [l|inner] eqn:Hb; simpl; [done|].
      intros [= <-]. right; right. split; [done|]. by exists ops, inner.
    + intros [= ->]. right; left. split; [done|].
      by apply normalizeElements_Throws_inv in Hl.
  - intros [= <-]. by left.
Qed.


(** An object that has both a check and a map has at least two members. *)
Lemma conditional_two_members (def : DocumentValue) :
  HasMember def "check" = true -> HasMember def "map" = true ->
  2 <= MemberCount def.
Proof.
  unfold HasMember, MemberCount.
  destruct (Members def) as [|[k1 v1] [|[k2 v2] rest]]; simpl; [done| |lia].
  destruct (String.eqb k1 "check") eqn:Hc; [|done].
  apply String.eqb_eq in Hc as ->. done.
Qed.

Lemma stage_Throws_at (cap : nat) (pre post : list DocumentValue)
    (it : DocumentValue) (e : Exception) :
  Forall (fun x => succeeds (element x) = true) pre ->
  element it = Throws e ->
  stage (JArray cap (pre ++ it :: post)) = Throws e.
Proof.
  intros Hpre Hit. rewrite stageBuilderNormalize_unfold. simpl.
  by rewrite (normalizeElements_Throws _ _ _ pre post it e [] Hpre Hit).
Qed.

(** C4. An entry with both a check and a map whose member count is not
    two has three members or more, and normalizeConditionalMap throws an
    invalid argument that reports the count, whatever the registry holds:
    no builder is looked up or called, neither half is built. The stage
    throws the same exception when the entries before it build. An entry
    with no map makes the stage throw an invalid argument as well. *)
Theorem C4_conditional_arity (def other : DocumentValue) :
  HasMember def "check" = true ->
  HasMember def "map" = true ->
  MemberCount def <> 2 ->
  HasMember other "map" = false ->
  3 <= MemberCount def
  /\ normalizeConditionalMap TracerFn getBuilder def tr
     = Throws (Exc InvalidArgument (msgArity (MemberCount def)) None)
  /\ (forall cap pre post,
        Forall (fun x => succeeds (element x) = true) pre ->
        stage (JArray cap (pre ++ def :: post))
        = Throws (Exc InvalidArgument (msgArity (MemberCount def)) None))
  /\ (exists msg,
        element other = Throws (Exc InvalidArgument msg None) /\
        forall cap pre post,
          Forall (fun x => succeeds (element x) = true) pre ->
          stage (JArray cap (pre ++ other :: post))
          = Throws (Exc InvalidArgument msg None)).
Proof.
  intros Hc Hm Hn Ho.
  assert (H2 := conditional_two_members def Hc Hm).
  assert (Hcm : normalizeConditionalMap TracerFn getBuilder def tr
                = Throws (Exc InvalidArgument (msgArity (MemberCount def)) None)).
  { unfold normalizeConditionalMap.
    destruct (MemberCount def =? 2) eqn:Heq; [|done].
    apply Nat.eqb_eq in Heq. done. }
  split; [lia|]. split; [done|]. split.
  - intros cap pre post Hpre. apply stage_Throws_at; [done|].
    unfold normalizeElement.
    assert (Hobj : IsObject def = true).
    { destruct def; try done. }
    by rewrite Hobj, Hm, Hc.
  - destruct (normalizeElement_noMap other) as [msg Hmsg].
    { unfold hasMap. rewrite Ho. apply andb_false_r. }
    exists msg. split; [done|].
    intros cap pre post Hpre. by apply stage_Throws_at.
Qed.

(** X12. The stage builder builds all or nothing. It throws what the
    first element that does not build throws, so it returns no
    transformer as soon as one element fails; and when it returns a
    transformer, the configuration is an array, every element of it was
    built, and the transformer is what the broadcast builder returned for
    the vector that holds, for each element in order, the closure that
    refers to the vector element of this index, followed by the
    publisher. *)
Theorem X12_stage_all_or_nothing (def : DocumentValue) :
  (forall pre it post e,
      Elements def = pre ++ it :: post ->
      Forall (fun x => succeeds (element x) = true) pre ->
      element it = Throws e ->
      stage def = Throws e)
  /\ (forall it,
        In it (Elements def) ->
        succeeds (element it) = false ->
        succeeds (stage def) = false)
  /\ (forall l,
        stage def = Returns l ->
        IsArray def = true /\
        (exists ops,
           Forall2 (fun it op => element it = Returns op) (Elements def) ops) /\
        broadcast ((LFilterAll <$> seq 0 (length (Elements def))) ++ [LPublish])
        = Returns l).
Proof.
  split; [|split].
  - intros pre it post e Hes Hpre Hit.
    destruct def; simpl in Hes; try by destruct pre.
    subst. by apply stage_Throws_at.
  - intros it Hin Hfail.
    destruct (stage def) as [l|e] eqn:Hs; [exfalso|done].
    rewrite stageBuilderNormalize_unfold in Hs.
    destruct (IsArray def); simpl in Hs; [|done].
    destruct (normalizeElements _ _ _ tr []) as [ops|e] eqn:Hl; [|done].
    assert (Hall : succeeds (loop (Elements def) []) = true) by by rewrite Hl.
    apply normalizeElements_succeeds in Hall.
    rewrite Forall_forall in Hall.
    specialize (Hall it (proj2 (list_elem_of_In _ _) Hin)). congruence.
  - intros l Hs. rewrite stageBuilderNormalize_unfold in Hs.
    destruct (IsArray def); simpl in Hs; [|done]. split; [done|].
    destruct (normalizeElements _ _ _ tr []) as [ops|e] eqn:Hl; [|done].
    simpl in Hs. apply normalizeElements_Returns in Hl.
    split; [by exists ops|].
    rewrite (Forall2_length _ _ _ Hl), <- filterAll_eq.
    destruct (callCombinatorBuilder _ _ _ _); [done|].
    simpl in Hs. discriminate.
Qed.


End StageErrors.

(** ** Where the exceptions of the branch builders come from *)

Section BranchErrors.

Variable TracerFn : Type.
Variable getBuilder : string -> Result (Builder TracerFn).
Variable tr : TracerFn.

Local Abbreviation opBuilder name def := (callOpBuilder TracerFn getBuilder name def tr).
Local Abbreviation chainBuilder ops :=
  (callCombinatorBuilder TracerFn getBuilder "combinator.chain" ops).
Local Abbreviation nMap ref := (normalizeMap TracerFn getBuilder ref tr).
Local Abbreviation nCheck ref := (normalizeCheck TracerFn getBuilder ref tr).
Local Abbreviation nConditional def :=
  (normalizeConditionalMap TracerFn getBuilder def tr).

Lemma tryCatch_rethrow_inv {A : Type} (body : Result A) (ctx : string -> string)
    (e : Exception) :
  tryCatch body (rethrow ctx) = Throws e ->
  exists inner, body = Throws inner /\ rethrown ctx inner e.
Proof.
  destruct body as [a|inner]; simpl; [done|].
  unfold rethrow, throwWithNested. intros [= <-]. by exists inner.
Qed.

Lemma normalizeMapMembers_Throws_inv (ms : list (string * DocumentValue))
    (acc : list Lifter) (e : Exception) :
  normalizeMapMembers TracerFn getBuilder ms tr acc = Throws e ->
  exists inner name value,
    In (name, value) ms /\
    opBuilder "map" (JObject [(name, deepCopy value)]) = Throws inner /\
    rethrown msgBuilding inner e.
Proof.
  revert acc. induction ms as [|[k v] ms IH]; intros acc; simpl; [done|].
  destruct (callOpBuilder _ _ "map" (JObject [(k, deepCopy v)]) tr) as [op|inner] eqn:Hop;
    simpl.
  - intros H. destruct (IH _ H) as (inner & name & value & Hin & Hb & Hr).
    exists inner, name, value. auto.
  - unfold throwWithNested. intros [= <-]. exists inner, k, v.
    split; [by left|]. by split.
Qed.

(** What normalizeMap throws: its own two checks, or the failure of the
    map builder on one member, or of the chain, thrown again. *)
Lemma normalizeMap_Throws_inv (ref : DocumentValue) (e : Exception) :
  nMap ref = Throws e ->
  (IsObject ref = false /\ e = Exc InvalidArgument msgMapNotObject None)
  \/ (IsObject ref = true /\ MemberCount ref = 0 /\
      e = Exc InvalidArgument msgMapEmpty None)
  \/ (exists inner, rethrown msgBuilding inner e /\
        ((exists name value,
             In (name, value) (Members ref) /\
             opBuilder "map" (JObject [(name, deepCopy value)]) = Throws inner)
         \/ (exists mapOps, chainBuilder mapOps = Throws inner))).
Proof.
  unfold normalizeMap.
  destruct (IsObject ref); simpl; [|intros [= <-]; by left].
  destruct (MemberCount ref <=? 0) eqn:Hc.
  - apply Nat.leb_le in Hc. intros [= <-]. right; left.
    split; [done|]. split; [lia|done].
  - destruct (normalizeMapMembers _ _ _ tr []) as [mapOps|e'] eqn:Hm; simpl.
    + intros (inner & Hb & Hr)%tryCatch_rethrow_inv.
      right; right. exists inner. split; [done|]. right. by exists mapOps.
    + intros [= ->].
      apply normalizeMapMembers_Throws_inv in Hm
        as (inner & name & value & Hin & Hb & Hr).
      right; right. exists inner. split; [done|]. left. by exists name, value.
Qed.

(** What normalizeCheck throws: its own two checks (the second one on
    the capacity of the array), or the failure of the check builder, or of
    the chain, thrown again. *)
Lemma normalizeCheck_Throws_inv (ref : DocumentValue) (e : Exception) :
  nCheck ref = Throws e ->
  (IsArray ref = false /\ e = Exc InvalidArgument msgCheckNotArray None)
  \/ (IsArray ref = true /\ Capacity ref = 0 /\
      e = Exc InvalidArgument msgCheckEmpty None)
  \/ (IsArray ref = true /\ 0 < Capacity ref /\
      exists inner, rethrown msgBuilding inner e /\
        (opBuilder "check" ref = Throws inner
         \/ (exists checkOps, chainBuilder checkOps = Throws inner))).
Proof.
  unfold normalizeCheck.
  destruct (IsArray ref); simpl; [|intros [= <-]; by left].
  destruct (Capacity ref <=? 0) eqn:Hc.
  - apply Nat.leb_le in Hc. intros [= <-]. right; left.
    split; [done|]. split; [lia|done].
  - apply Nat.leb_gt in Hc.
    destruct (callOpBuilder _ _ "check" ref tr) as [op|inner] eqn:Hop; simpl.
    + intros (inner & Hb & Hr)%tryCatch_rethrow_inv.
      right; right. split; [done|]. split; [done|].
      exists inner. split; [done|]. right. by eexists.
    + unfold throwWithNested. intros [= <-].
      right; right. split; [done|]. split; [done|].
      exists inner. split; [done|]. by left.
Qed.

(** What normalizeConditionalMap throws: its own check of the member
    count, or the failure of its check half, of its map half or of the
    chain, thrown again with the side named. *)
Lemma normalizeConditionalMap_Throws_inv (def : DocumentValue) (e : Exception) :
  nConditional def = Throws e ->
  (MemberCount def <> 2 /\
   e = Exc InvalidArgument (msgArity (MemberCount def)) None)
  \/ (MemberCount def = 2 /\
      exists inner,
        (nCheck (member def "check") = Throws inner /\
         rethrown (msgConditionalSide "check") inner e)
        \/ (succeeds (nCheck (member def "check")) = true /\
            nMap (member def "map") = Throws inner /\
            rethrown (msgConditionalSide "map") inner e)
        \/ ((exists ops, chainBuilder ops = Throws inner) /\
            rethrown msgConditionalBuilding inner e)).
Proof.
  unfold normalizeConditionalMap.
  destruct (MemberCount def =? 2) eqn:Hc; simpl.
  - apply Nat.eqb_eq in Hc. intros H. right. split; [done|].
    destruct (normalizeCheck _ _ (member def "check") tr) as [c|inner] eqn:Hck;
      simpl in H.
    + destruct (normalizeMap _ _ (member def "map") tr) as [m|inner] eqn:Hmp;
        simpl in H.
      * apply tryCatch_rethrow_inv in H as (inner & Hb & Hr).
        exists inner. right; right. split; [by eexists|done].
      * injection H as <-. exists inner. right; left. by repeat split.
    + injection H as <-. exists inner. left. by split.
  - apply Nat.eqb_neq in Hc. intros [= <-]. by left.
Qed.

(** A conditional entry is built as the chain of its check half and of
    its map half, after the check of the member count. *)
Lemma normalizeConditionalMap_Returns_inv (def : DocumentValue) (l : Lifter) :
  nConditional def = Returns l ->
  MemberCount def = 2 /\
  exists c m,
    nCheck (member def "check") = Returns c /\
    nMap (member def "map") = Returns m /\
    chainBuilder [c; m] = Returns l.
Proof.
  unfold normalizeConditionalMap.
  destruct (MemberCount def =? 2) eqn:Hc; simpl; [|done].
  apply Nat.eqb_eq in Hc. intros H. split; [done|].
  destruct (normalizeCheck _ _ (member def "check") tr) as [c|?]; [|done].
  destruct (normalizeMap _ _ (member def "map") tr) as [m|?]; [|done].
  simpl in H. exists c, m. repeat split.
  destruct (callCombinatorBuilder _ _ _ _); [done|]. simpl in H. discriminate.
Qed.

End BranchErrors.

(** ** The check half and the capacity of its array *)

Section CheckHalf.

Variable TracerFn : Type.
Variable getBuilder : string -> Result (Builder TracerFn).
Variable tr : TracerFn.

Local Abbreviation nCheck ref := (normalizeCheck TracerFn getBuilder ref tr).

Lemma normalizeCheck_not_array (ref : DocumentValue) :
  IsArray ref = false ->
  nCheck ref = Throws (Exc InvalidArgument msgCheckNotArray None).
Proof. unfold normalizeCheck. by intros ->. Qed.

Lemma normalizeCheck_no_capacity (ref : DocumentValue) :
  IsArray ref = true -> Capacity ref = 0 ->
  nCheck ref = Throws (Exc InvalidArgument msgCheckEmpty None).
Proof. unfold normalizeCheck. by intros -> ->. Qed.

(** An empty array as a parser builds it (no storage) is refused. *)
Lemma normalizeCheck_parsed_empty :
  nCheck (JArray 0 []) = Throws (Exc InvalidArgument msgCheckEmpty None).
Proof. by apply normalizeCheck_no_capacity. Qed.

(** An array that has storage passes both checks of normalizeCheck,
    however many elements it has: an exception, if any, is the failure of
    a builder thrown again as a runtime error. *)
Lemma normalizeCheck_capacity (ref : DocumentValue) :
  IsArray ref = true -> 0 < Capacity ref ->
  match nCheck ref with
  | Returns _ => True
  | Throws e => class e = RuntimeError /\ nested e <> None
  end.
Proof.
  intros Ha Hc. destruct (normalizeCheck _ _ ref tr) as [l|e] eqn:H; [done|].
  apply normalizeCheck_Throws_inv in H
    as [[Ha' _]|[(_ & Hc' & _)|(_ & _ & inner & -> & _)]];
    [congruence|lia|done].
Qed.

End CheckHalf.

(** C5 (the code does not do this). The check array of
    [Sample.conditionalReserved] has no element and a capacity of 16.
    normalizeCheck does not refuse it: whatever the registry, it throws
    no invalid argument of its own; with a check builder that refuses an
    empty array the failure is a runtime error around the builder's, and
    with one that takes any array the check half, and the whole
    conditional entry, are built. The same array with no storage is
    refused with the message that the check can not be empty. *)
Theorem C5_check_emptiness_reads_capacity :
  Size Sample.reservedEmpty = 0
  /\ Capacity Sample.reservedEmpty = 16
  /\ (forall TracerFn getBuilder tr,
        match normalizeCheck TracerFn getBuilder Sample.reservedEmpty tr with
        | Returns _ => True
        | Throws e => class e = RuntimeError /\ nested e <> None
        end)
  /\ normalizeCheck unit Sample.registry Sample.reservedEmpty tt
     = Throws (Exc RuntimeError
                 (msgBuilding "check: expected a non-empty array")
                 (Some (Exc InvalidArgument "check: expected a non-empty array"
                          None)))
  /\ succeeds (normalizeCheck unit Sample.lenientRegistry
                 Sample.reservedEmpty tt) = true
  /\ succeeds (stageBuilderNormalize unit Sample.lenientRegistry
                 (Sample.array [Sample.conditionalReserved]) tt) = true
  /\ (forall TracerFn getBuilder tr,
        normalizeCheck TracerFn getBuilder (JArray 0 []) tr
        = Throws (Exc InvalidArgument msgCheckEmpty None)).
Proof.
  split; [done|]. split; [done|]. split.
  { intros. apply normalizeCheck_capacity; [done|]. simpl. lia. }
  split; [done|]. split; [done|]. split; [done|].
  intros. apply normalizeCheck_parsed_empty.
Qed.

(** ** How failures are chained *)

(** C7 (the code does not do this). The stage builder calls
    normalizeMap for the element [{"map": {}}] outside of any try block:
    the invalid argument that normalizeMap throws leaves the stage builder
    as it is, not caught and not wrapped; it has no nested cause and its
    only message names neither the stage nor the element. In the same
    way, what normalizeConditionalMap throws for an entry whose map is an
    object of no member leaves the stage builder as it is: the chain of
    messages starts at the map side of the conditional map builder, with
    no message of the stage before it. *)
Theorem C7_stage_does_not_wrap_element_failure :
  (exists inner,
     normalizeMap unit Sample.registry (member Sample.plainEmptyMap "map") tt
     = Throws inner
     /\ stageBuilderNormalize unit Sample.registry
          (Sample.array [Sample.plainEmptyMap]) tt = Throws inner
     /\ whatChain inner = [msgMapEmpty]
     /\ ~ (exists outer,
             stageBuilderNormalize unit Sample.registry
               (Sample.array [Sample.plainEmptyMap]) tt = Throws outer
             /\ nested outer = Some inner))
  /\ (exists inner,
        normalizeConditionalMap unit Sample.registry
          Sample.conditionalEmptyMap tt = Throws inner
        /\ stageBuilderNormalize unit Sample.registry
             (Sample.array [Sample.plainA; Sample.conditionalEmptyMap]) tt
           = Throws inner
        /\ whatChain inner = [msgConditionalSide "map" msgMapEmpty; msgMapEmpty]).
Proof.
  split.
  - exists (Exc InvalidArgument msgMapEmpty None).
    split; [done|]. split; [done|]. split; [done|].
    intros (outer & Ho & Hn). vm_compute in Ho. injection Ho as <-. done.
  - exists (Exc RuntimeError (msgConditionalSide "map" msgMapEmpty)
              (Some (Exc InvalidArgument msgMapEmpty None))).
    split; [done|]. split; done.
Qed.

(** ** Running the transformers *)

Section Running.

Variable deref : nat -> Event -> Store -> Run (Store * list Event).

Local Abbreviation run l e st := (invokeWith deref l e st).

(** A chain of two whose first transformer emits nothing for an event
    does for this event what the first transformer does: the second one
    is not run. *)
Lemma chain_first_drops (c m : Lifter) (e : Event) (st st1 : Store) :
  run c e st = Ran (st1, []) ->
  run (LChain [c; m]) e st = Ran (st1, []).
Proof. intros H. simpl. rewrite H. reflexivity. Qed.

(** The broadcast of the publisher alone is the identity on streams. *)
Lemma feedWith_publisher (es : list Event) (st : Store) :
  feedWith deref (LBroadcast [LPublish]) es st = Ran (st, es).
Proof.
  unfold feedWith. induction es as [|e es IH]; simpl; [done|].
  simpl in IH. by rewrite IH.
Qed.

End Running.

(** A closure that refers to a vector element which holds this very
    closure calls itself for ever. *)
Lemma derefIn_self (fuel : nat) (ops : list Lifter) (slot : nat)
    (e : Event) (st : Store) :
  ops !! slot = Some (LFilterAll slot) ->
  derefIn fuel (Some ops) slot e st = NoFuel.
Proof.
  intros H. induction fuel as [|fuel IH]; simpl; rewrite H; [done|].
  simpl. by rewrite IH.
Qed.

Lemma derefIn_gone (fuel slot : nat) (e : Event) (st : Store) :
  derefIn fuel None slot e st = Dangling.
Proof. by destruct fuel. Qed.

(** After the loop of the stage, what was built for an element is in no
    element of the vector: two vectors of the same length end up equal. *)
Lemma filterAll_forgets (ops ops' : list Lifter) :
  length ops = length ops' -> filterAll ops = filterAll ops'.
Proof. intros H. by rewrite !filterAll_eq, H. Qed.

Lemma filterAll_lookup (ops : list Lifter) (slot : nat) :
  slot < length ops -> filterAll ops !! slot = Some (LFilterAll slot).
Proof.
  intros H. rewrite filterAll_eq, list_lookup_fmap, lookup_seq_lt by done.
  reflexivity.
Qed.

Section StageRuns.

Variable TracerFn : Type.
Variable getBuilder : string -> Result (Builder TracerFn).
Variable tr : TracerFn.

Hypothesis broadcast_is_spec :
  getBuilder "combinator.broadcast"
  = Returns (CombinatorBuilder combinatorBuilderBroadcast).

(** With the broadcast combinator, the vector handed to the builder and
    the transformer returned are the closures, one per element, and the
    publisher. *)
Lemma stage_frame_shape (def : DocumentValue) (frame : list Lifter) (l : Lifter) :
  stageBuilderNormalizeFrame TracerFn getBuilder def tr = Returns (frame, l) ->
  frame = (LFilterAll <$> seq 0 (length (Elements def))) ++ [LPublish]
  /\ l = LBroadcast frame.
Proof.
  unfold stageBuilderNormalizeFrame.
  destruct (IsArray def); simpl; [|done].
  destruct (normalizeElements _ _ _ tr []) as [ops|?] eqn:Hl; simpl; [|done].
  unfold callCombinatorBuilder. rewrite broadcast_is_spec. simpl.
  intros [= <- <-].
  apply normalizeElements_Returns, Forall2_length in Hl.
  by rewrite filterAll_eq, Hl.
Qed.

Lemma stage_frame_of_result (def : DocumentValue) (l : Lifter) :
  stageBuilderNormalize TracerFn getBuilder def tr = Returns l ->
  exists frame,
    stageBuilderNormalizeFrame TracerFn getBuilder def tr = Returns (frame, l).
Proof.
  unfold stageBuilderNormalize.
  destruct (stageBuilderNormalizeFrame _ _ def tr) as [[frame l']|?]; [|done].
  simpl. intros [= <-]. by exists frame.
Qed.

(** With one element or more in the array, the transformer that the stage
    builder returned comes to no result on any event: its first branch is
    a closure that reads the vector element it was stored in, and the
    vector is gone. *)
Lemma returned_transformer_dangles (def : DocumentValue) (l : Lifter) :
  Elements def <> [] ->
  stageBuilderNormalize TracerFn getBuilder def tr = Returns l ->
  forall fuel e es st, feed fuel afterReturn l (e :: es) st = Dangling.
Proof.
  intros Hne [frame Hf]%stage_frame_of_result fuel e es st.
  apply stage_frame_shape in Hf as [-> ->].
  destruct (Elements def) as [|it rest]; [done|].
  unfold feed, feedWith, afterReturn. simpl.
  by rewrite derefIn_gone.
Qed.

End StageRuns.

(** ** The stage as a transformer *)

(** C6. For an array of no element the loop builds nothing, the vector
    holds the publisher alone and, the registry holding the broadcast
    combinator, the stage builder returns the broadcast of the publisher:
    on any stream of events it leaves the store as it is and emits the
    events of the stream, each once and in order. *)
Theorem C6_empty_stage_identity (TracerFn : Type)
    (getBuilder : string -> Result (Builder TracerFn)) (tr : TracerFn)
    (cap : nat) :
  getBuilder "combinator.broadcast"
    = Returns (CombinatorBuilder combinatorBuilderBroadcast) ->
  stageBuilderNormalizeFrame TracerFn getBuilder (JArray cap []) tr
    = Returns ([LPublish], LBroadcast [LPublish])
  /\ stageBuilderNormalize TracerFn getBuilder (JArray cap []) tr
     = Returns (LBroadcast [LPublish])
  /\ (forall fuel frame es st,
        feed fuel frame (LBroadcast [LPublish]) es st = Ran (st, es)).
Proof.
  intros Hb.
  assert (Hf : stageBuilderNormalizeFrame TracerFn getBuilder (JArray cap []) tr
               = Returns ([LPublish], LBroadcast [LPublish])).
  { unfold stageBuilderNormalizeFrame, callCombinatorBuilder. simpl.
    by rewrite Hb. }
  split; [done|]. split.
  - unfold stageBuilderNormalize. by rewrite Hf.
  - intros. apply feedWith_publisher.
Qed.

Lemma C6_empty_stage_identity_witness :
  stageBuilderNormalize unit Sample.registry (JArray 0 []) tt
    = Returns (LBroadcast [LPublish])
  /\ feed 0 None (LBroadcast [LPublish]) [0; 1; 2] [JObject []; JNull; JTrue]
     = Ran ([JObject []; JNull; JTrue], [0; 1; 2]).
Proof.
  destruct (C6_empty_stage_identity unit Sample.registry tt 0 eq_refl)
    as (_ & H1 & H2).
  split; [exact H1|apply H2].
Defined.

(** C1 (the code does not do this). For the configuration
    [[{"map": {"a": 1}}]] the stage builder returns the broadcast of a
    closure that refers to the first element of its vector and of the
    publisher, and this first element is the closure itself. Fed one
    document, the transformer emits no document: were the element still
    in place, the closure would call itself without end, whatever the
    number of calls allowed; as the vector is gone when the transformer
    is applied, the closure reads a reference to nothing. *)
Theorem C1_stage_with_a_branch_emits_nothing :
  stageBuilderNormalizeFrame unit Sample.registry
    (Sample.array [Sample.plainA]) tt
  = Returns ([LFilterAll 0; LPublish], LBroadcast [LFilterAll 0; LPublish])
  /\ (forall fuel,
        feed fuel (Some [LFilterAll 0; LPublish])
          (LBroadcast [LFilterAll 0; LPublish]) [0] [JObject []] = NoFuel)
  /\ (forall fuel,
        feed fuel None
          (LBroadcast [LFilterAll 0; LPublish]) [0] [JObject []] = Dangling).
Proof.
  split; [done|]. split; intros fuel; unfold feed, feedWith; simpl.
  - by rewrite derefIn_self.
  - by rewrite derefIn_gone.
Qed.

(** C9 (the code does not do this). For the configuration
    [[{"map": {"a": 1}}]] the branch built for the element sets the field
    of the document when it is run. After the loop that installs the
    closures, the element of the vector no longer holds this branch but a
    closure that refers to the element itself; the same vector is left
    for the configuration [[{"map": {"b": 2}}]]. Called on a document, the
    closure does not run the branch: it would call itself without end
    were the element still in place, and it reads a reference to nothing
    as the vector is gone. *)
Theorem C9_closure_calls_its_own_slot :
  normalizeElement unit Sample.registry Sample.plainA tt
    = Returns Sample.branchA
  /\ invoke 0 None Sample.branchA 0 [JObject []]
     = Ran ([JObject [("a", JNumber 1)]], [0])
  /\ filterAll [Sample.branchA] = [LFilterAll 0]
  /\ stageBuilderNormalizeFrame unit Sample.registry
       (Sample.array [Sample.plainA]) tt
     = Returns ([LFilterAll 0; LPublish], LBroadcast [LFilterAll 0; LPublish])
  /\ stageBuilderNormalizeFrame unit Sample.registry
       (Sample.array [Sample.plainB]) tt
     = stageBuilderNormalizeFrame unit Sample.registry
         (Sample.array [Sample.plainA]) tt
  /\ (forall fuel,
        invoke fuel (Some [LFilterAll 0; LPublish]) (LFilterAll 0) 0 [JObject []]
        = NoFuel)
  /\ (forall fuel,
        invoke fuel None (LFilterAll 0) 0 [JObject []] = Dangling).
Proof.
  split; [done|]. split; [done|]. split; [done|]. split; [done|].
  split; [done|]. split; intros fuel; unfold invoke; simpl.
  - by rewrite derefIn_self.
  - by rewrite derefIn_gone.
Qed.

(** C2 (the code does not do this). For the configuration
    [[{"map": {"a": 1}}, {"check": [x], "map": {"b": 2}}]] and a condition
    that does not hold, the conditional entry is built as the chain of its
    check half and of its map half, and this branch, run on the document,
    emits nothing and leaves the document as it is; the branch of the
    first entry, run on the document, sets its field. But the stage
    builder returns the broadcast of two closures and of the publisher,
    which holds neither branch: applied to the document it comes to no
    result, so the first entry does not apply its map either. *)
Theorem C2_other_branches_do_not_run :
  normalizeConditionalMap unit Sample.registry Sample.conditionalB tt
    = Returns (LChain [Sample.branchX; Sample.branchB])
  /\ invoke 0 afterReturn (LChain [Sample.branchX; Sample.branchB]) 0 [JObject []]
     = Ran ([JObject []], [])
  /\ normalizeElement unit Sample.registry Sample.plainA tt
     = Returns Sample.branchA
  /\ invoke 0 afterReturn Sample.branchA 0 [JObject []]
     = Ran ([JObject [("a", JNumber 1)]], [0])
  /\ stageBuilderNormalize unit Sample.registry
       (Sample.array [Sample.plainA; Sample.conditionalB]) tt
     = Returns (LBroadcast [LFilterAll 0; LFilterAll 1; LPublish])
  /\ (forall fuel,
        feed fuel afterReturn (LBroadcast [LFilterAll 0; LFilterAll 1; LPublish])
          [0] [JObject []] = Dangling).
Proof.
  split; [done|]. split; [done|]. split; [done|]. split; [done|].
  split; [done|]. intros fuel. unfold feed, feedWith, afterReturn. simpl.
  by rewrite derefIn_gone.
Qed.

(** C8 (the code does not do this). For the configuration
    [[{"map": {"a": 1}}]] the element is built and the stage builder
    returns one transformer, but the vector it hands to the broadcast
    builder does not hold the branch built for the element: it holds a
    closure that refers to the first vector element, and the publisher.
    The configuration [[{"map": {"b": 2}}]], whose branch is another one,
    gets the same transformer, which comes to no result on a document. *)
Theorem C8_returned_transformer_holds_no_branch :
  normalizeElement unit Sample.registry Sample.plainA tt
    = Returns Sample.branchA
  /\ stageBuilderNormalizeFrame unit Sample.registry
       (Sample.array [Sample.plainA]) tt
     = Returns ([LFilterAll 0; LPublish], LBroadcast [LFilterAll 0; LPublish])
  /\ ~ In Sample.branchA [LFilterAll 0; LPublish]
  /\ normalizeElement unit Sample.registry Sample.plainB tt
     = Returns Sample.branchB
  /\ Sample.branchA <> Sample.branchB
  /\ stageBuilderNormalize unit Sample.registry (Sample.array [Sample.plainB]) tt
     = stageBuilderNormalize unit Sample.registry (Sample.array [Sample.plainA]) tt
  /\ (forall fuel,
        feed fuel afterReturn (LBroadcast [LFilterAll 0; LPublish])
          [0] [JObject []] = Dangling).
Proof.
  split; [done|]. split; [done|]. split.
  { intros [H|[H|[]]]; discriminate H. }
  split; [done|]. split.
  { intros H. injection H as H.
    apply (f_equal (fun f => f 0 [JObject []])) in H. discriminate H. }
  split; [done|]. intros fuel. unfold feed, feedWith, afterReturn. simpl.
  by rewrite derefIn_gone.
Qed.

(** ** The theorems at concrete configurations *)


Lemma C4_conditional_arity_witness :
  normalizeConditionalMap unit Sample.registry Sample.conditionalThree tt
    = Throws (Exc InvalidArgument (msgArity 3) None)
  /\ exists msg,
       normalizeElement unit Sample.registry Sample.checkOnly tt
       = Throws (Exc InvalidArgument msg None).
Proof.
  destruct (C4_conditional_arity unit Sample.registry tt
              Sample.conditionalThree Sample.checkOnly
              eq_refl eq_refl ltac:(vm_compute; lia) eq_refl)
    as (_ & H1 & _ & msg & H2 & _).
  split; [exact H1|]. exists msg. exact H2.
Defined.

Lemma X12_stage_all_or_nothing_witness :
  succeeds (stageBuilderNormalize unit Sample.registry
              (Sample.array [Sample.plainA; Sample.plainEmptyMap]) tt) = false.
Proof.
  apply (proj1 (proj2 (X12_stage_all_or_nothing unit Sample.registry tt
                         (Sample.array [Sample.plainA; Sample.plainEmptyMap])))
           Sample.plainEmptyMap).
  - simpl. right. left. reflexivity.
  - reflexivity.
Defined.


(** ** Further properties of the branch builders *)

Section BranchBuilders.

Variable TracerFn : Type.
Variable getBuilder : string -> Result (Builder TracerFn).
Variable tr : TracerFn.

Local Abbreviation opBuilder name def := (callOpBuilder TracerFn getBuilder name def tr).
Local Abbreviation chainBuilder ops :=
  (callCombinatorBuilder TracerFn getBuilder "combinator.chain" ops).
Local Abbreviation nMap ref := (normalizeMap TracerFn getBuilder ref tr).
Local Abbreviation nCheck ref := (normalizeCheck TracerFn getBuilder ref tr).
Local Abbreviation nConditional def :=
  (normalizeConditionalMap TracerFn getBuilder def tr).
Local Abbreviation element it := (normalizeElement TracerFn getBuilder it tr).
Local Abbreviation stage def := (stageBuilderNormalize TracerFn getBuilder def tr).

(** The operation that the map builder makes of one member: it is given
    the object that holds a deep copy of this member alone. *)
Local Abbreviation memberOp kv :=
  (opBuilder "map" (JObject [(fst kv, deepCopy (snd kv))])).

Lemma normalizeMapMembers_Returns (ms : list (string * DocumentValue))
    (acc r : list Lifter) :
  normalizeMapMembers TracerFn getBuilder ms tr acc = Returns r <->
  exists ops,
    Forall2 (fun kv op => memberOp kv = Returns op) ms ops /\ r = acc ++ ops.
Proof.
  revert acc r. induction ms as [|[k v] ms IH]; intros acc r; simpl.
  - split.
    + intros [= <-]. exists []. split; [constructor|by rewrite app_nil_r].
    + intros (ops & H & ->). inversion H. by rewrite app_nil_r.
  - destruct (callOpBuilder _ _ "map" (JObject [(k, deepCopy v)]) tr) as [op|e] eqn:Hop;
      simpl.
    + rewrite IH. split.
      * intros (ops & H & ->). exists (op :: ops).
        split; [by constructor|by rewrite <- app_assoc].
      * intros (ops & H & ->). inversion H as [|?? ? ops' Hk Hrest]; subst.
        simpl in Hk. rewrite Hop in Hk. injection Hk as <-.
        exists ops'. split; [done|by rewrite <- app_assoc].
    + split; [done|]. intros (ops & H & _).
      inversion H as [|?? ? ? Hk]; subst. simpl in Hk. by rewrite Hop in Hk.
Qed.

Lemma normalizeMapMembers_first_failure (pre post : list (string * DocumentValue))
    (kv : string * DocumentValue) (inner : Exception) (acc : list Lifter) :
  Forall (fun x => succeeds (memberOp x) = true) pre ->
  memberOp kv = Throws inner ->
  normalizeMapMembers TracerFn getBuilder (pre ++ kv :: post) tr acc
  = Throws (Exc RuntimeError (msgBuilding (what inner)) (Some inner)).
Proof.
  intros Hpre Hkv. revert acc.
  induction Hpre as [|[k v] pre Hx _ IH]; intros acc; simpl.
  - destruct kv as [k v]. simpl in Hkv. by rewrite Hkv.
  - simpl in Hx.
    destruct (callOpBuilder _ _ "map" (JObject [(k, deepCopy v)]) tr); [|done].
    simpl. apply IH.
Qed.

(** X1. normalizeMap returns a transformer exactly when its argument is
    an object with at least one member, the map builder of the registry
    builds an operation for each member, from the object that holds a
    deep copy of this member alone (an array in it has the capacity of its
    size), and the chain builder returns this transformer for the
    list of these operations, one per member and in the order of the
    members (members of the same name each give an operation). *)
Theorem X1_normalizeMap_returns_iff (ref : DocumentValue) (l : Lifter) :
  nMap ref = Returns l <->
  IsObject ref = true /\ 0 < MemberCount ref /\
  exists ops,
    Forall2 (fun kv op => memberOp kv = Returns op) (Members ref) ops /\
    chainBuilder ops = Returns l.
Proof.
  unfold normalizeMap. destruct (IsObject ref); simpl.
  2: { split; [done|]. by intros [? _]. }
  destruct (MemberCount ref <=? 0) eqn:Hc.
  { apply Nat.leb_le in Hc. split; [done|]. intros (_ & ? & _). lia. }
  apply Nat.leb_gt in Hc.
  destruct (normalizeMapMembers _ _ _ tr []) as [mapOps|e] eqn:Hm; simpl.
  - apply normalizeMapMembers_Returns in Hm as (ops & Hall & ->). simpl.
    split.
    + intros H. split; [done|]. split; [done|]. exists ops. split; [done|].
      destruct (callCombinatorBuilder _ _ _ ops); [done|]. simpl in H. discriminate.
    + intros (_ & _ & ops' & Hall' & Hchain).
      assert (ops' = ops) as ->.
      { clear -Hall Hall'. revert ops' Hall'.
        induction Hall as [|kv op ms ops Hk _ IH]; intros ops' H';
          inversion H' as [|? op' ? ops'' Hk' Hrest]; subst; [done|].
        rewrite Hk in Hk'. injection Hk' as <-. f_equal. by apply IH. }
      by rewrite Hchain.
  - split; [done|]. intros (_ & _ & ops & Hall & _).
    assert (Hr : normalizeMapMembers TracerFn getBuilder (Members ref) tr []
                 = Returns ([] ++ ops))
      by (apply normalizeMapMembers_Returns; by exists ops).
    rewrite Hm in Hr. discriminate.
Qed.

Lemma normalizeMap_first_failure (ref : DocumentValue)
    (pre post : list (string * DocumentValue)) (kv : string * DocumentValue)
    (inner : Exception) :
  Members ref = pre ++ kv :: post ->
  Forall (fun x => succeeds (memberOp x) = true) pre ->
  memberOp kv = Throws inner ->
  nMap ref = Throws (Exc RuntimeError (msgBuilding (what inner)) (Some inner)).
Proof.
  intros Hms Hpre Hkv. unfold normalizeMap.
  assert (Hobj : IsObject ref = true).
  { destruct ref; try done; simpl in Hms; by destruct pre. }
  assert (Hn : (MemberCount ref <=? 0) = false).
  { apply Nat.leb_gt. unfold MemberCount. rewrite Hms, length_app. simpl. lia. }
  rewrite Hobj, Hn, Hms. simpl.
  by rewrite (normalizeMapMembers_first_failure pre post kv inner [] Hpre Hkv).
Qed.

(** X2. When the map builder fails on a member of the map object (on the
    object that holds a deep copy of this member alone) and has built the
    members before it, normalizeMap throws a runtime error whose
    message holds the message of this failure and whose nested cause is
    the failure: the members after it and the chain builder play no
    part. *)
Theorem X2_normalizeMap_first_failing_member (ref : DocumentValue)
    (pre post : list (string * DocumentValue)) (kv : string * DocumentValue)
    (inner : Exception) :
  Members ref = pre ++ kv :: post ->
  Forall (fun x => succeeds (memberOp x) = true) pre ->
  memberOp kv = Throws inner ->
  nMap ref = Throws (Exc RuntimeError (msgBuilding (what inner)) (Some inner))
  /\ (forall ref',
        Members ref' = pre ++ [kv] ->
        normalizeMap TracerFn getBuilder ref' tr = nMap ref).
Proof.
  intros Hms Hpre Hkv.
  rewrite (normalizeMap_first_failure ref pre post kv inner Hms Hpre Hkv).
  split; [done|]. intros ref' Hms'.
  by apply (normalizeMap_first_failure ref' pre [] kv inner).
Qed.

(** X3. normalizeMap throws an invalid argument without nested cause
    exactly when its argument is not an object or is an object of no
    member, whatever the registry holds; every other exception it throws
    is a runtime error around a failure of a builder. *)
Theorem X3_normalizeMap_refuses_iff (ref : DocumentValue) :
  (exists msg, nMap ref = Throws (Exc InvalidArgument msg None)) <->
  IsObject ref = false \/ MemberCount ref = 0.
Proof.
  split.
  - intros [msg H].
    apply normalizeMap_Throws_inv in H as [[Ho _]|[(_ & Hc & _)|(i & Hr & _)]];
      [by left|by right|discriminate Hr].
  - unfold normalizeMap. intros [->| Hc]; simpl; [by eexists|].
    destruct (IsObject ref); simpl; [|by eexists].
    rewrite Hc. by eexists.
Qed.

(** X4. normalizeCheck returns a transformer exactly when its argument
    is an array whose capacity is not zero, the check builder of the
    registry builds an operation for the whole array, and the chain
    builder returns this transformer for the list of this one
    operation. *)
Theorem X4_normalizeCheck_returns_iff (ref : DocumentValue) (l : Lifter) :
  nCheck ref = Returns l <->
  IsArray ref = true /\ 0 < Capacity ref /\
  exists op, opBuilder "check" ref = Returns op /\ chainBuilder [op] = Returns l.
Proof.
  unfold normalizeCheck. destruct (IsArray ref); simpl.
  2: { split; [done|]. by intros [? _]. }
  destruct (Capacity ref <=? 0) eqn:Hc.
  { apply Nat.leb_le in Hc. split; [done|]. intros (_ & ? & _). lia. }
  apply Nat.leb_gt in Hc.
  destruct (callOpBuilder _ _ "check" ref tr) as [op|e] eqn:Hop; simpl.
  - split.
    + intros H. split; [done|]. split; [done|]. exists op. split; [done|].
      destruct (callCombinatorBuilder _ _ _ [op]); [done|]. simpl in H. discriminate.
    + intros (_ & _ & op' & [= <-] & Hchain). by rewrite Hchain.
  - split; [done|]. by intros (_ & _ & op' & ? & _).
Qed.

(** X5. For an entry of two members whose check is not an array, or is an
    array of capacity zero, normalizeConditionalMap throws a runtime error
    that names the check side around the invalid argument of
    normalizeCheck, whatever the registry holds and whatever the map of
    the entry is: the check half is looked at first, and no builder is
    called. The stage builder throws the same exception when the entries
    before this one build. *)
Theorem X5_conditional_check_side_refused (def : DocumentValue)
    (cap : nat) (pre post : list DocumentValue) :
  HasMember def "check" = true ->
  HasMember def "map" = true ->
  MemberCount def = 2 ->
  okCheck (member def "check") = false ->
  Forall (fun x => succeeds (element x) = true) pre ->
  exists msg,
    (msg = msgCheckNotArray \/ msg = msgCheckEmpty) /\
    nConditional def
    = Throws (Exc RuntimeError (msgConditionalSide "check" msg)
                (Some (Exc InvalidArgument msg None))) /\
    stage (JArray cap (pre ++ def :: post))
    = Throws (Exc RuntimeError (msgConditionalSide "check" msg)
                (Some (Exc InvalidArgument msg None))).
Proof.
  intros Hc Hm H2 Hok Hpre.
  assert (Hck : exists msg,
             (msg = msgCheckNotArray \/ msg = msgCheckEmpty) /\
             nCheck (member def "check") = Throws (Exc InvalidArgument msg None)).
  { unfold okCheck in Hok. destruct (IsArray (member def "check")) eqn:Ha.
    - simpl in Hok. apply Nat.ltb_ge in Hok.
      exists msgCheckEmpty. split; [by right|].
      apply normalizeCheck_no_capacity; [done|lia].
    - exists msgCheckNotArray. split; [by left|].
      by apply normalizeCheck_not_array. }
  destruct Hck as (msg & Hmsg & Hck). exists msg. split; [done|].
  assert (Hcond : nConditional def
                  = Throws (Exc RuntimeError (msgConditionalSide "check" msg)
                              (Some (Exc InvalidArgument msg None)))).
  { unfold normalizeConditionalMap. rewrite H2. simpl. by rewrite Hck. }
  split; [done|].
  apply stage_Throws_at; [done|]. unfold normalizeElement.
  assert (Hobj : IsObject def = true) by (destruct def; done).
  by rewrite Hobj, Hm, Hc.
Qed.

(** X6. When the map builder fails on a member of the map of a
    conditional entry whose check half builds (on the object that holds a
    deep copy of this member alone), the failure comes out of
    the stage builder wrapped twice: a runtime error that names the map
    side of the conditional map builder, around the runtime error of
    normalizeMap, around the failure. The chain of messages has the
    messages of the failure after these two. *)
Theorem X6_builder_failure_wrapped_twice (def : DocumentValue) (c : Lifter)
    (ms ms' : list (string * DocumentValue)) (kv : string * DocumentValue)
    (inner : Exception) (cap : nat) (pre post : list DocumentValue) :
  HasMember def "check" = true ->
  HasMember def "map" = true ->
  MemberCount def = 2 ->
  nCheck (member def "check") = Returns c ->
  Members (member def "map") = ms ++ kv :: ms' ->
  Forall (fun x => succeeds (memberOp x) = true) ms ->
  memberOp kv = Throws inner ->
  Forall (fun x => succeeds (element x) = true) pre ->
  let middle := Exc RuntimeError (msgBuilding (what inner)) (Some inner) in
  let outer :=
    Exc RuntimeError (msgConditionalSide "map" (msgBuilding (what inner)))
        (Some middle) in
  stage (JArray cap (pre ++ def :: post)) = Throws outer
  /\ whatChain outer
     = msgConditionalSide "map" (msgBuilding (what inner))
       :: msgBuilding (what inner) :: whatChain inner.
Proof.
  intros Hc Hm H2 Hck Hms Hpre' Hkv Hpre middle outer. split; [|done].
  apply stage_Throws_at; [done|]. unfold normalizeElement.
  assert (Hobj : IsObject def = true) by (destruct def; done).
  rewrite Hobj, Hm, Hc. unfold normalizeConditionalMap.
  rewrite H2. simpl. rewrite Hck. simpl.
  by rewrite (normalizeMap_first_failure _ ms ms' kv inner Hms Hpre' Hkv).
Qed.

End BranchBuilders.

(** ** Further properties of the stage builder *)

Section StageBuilder.

Variable TracerFn : Type.
Variable getBuilder : string -> Result (Builder TracerFn).
Variable tr : TracerFn.

Local Abbreviation opBuilder name def := (callOpBuilder TracerFn getBuilder name def tr).
Local Abbreviation chainBuilder ops :=
  (callCombinatorBuilder TracerFn getBuilder "combinator.chain" ops).
Local Abbreviation broadcast ops :=
  (callCombinatorBuilder TracerFn getBuilder "combinator.broadcast" ops).
Local Abbreviation nMap ref := (normalizeMap TracerFn getBuilder ref tr).
Local Abbreviation nCheck ref := (normalizeCheck TracerFn getBuilder ref tr).
Local Abbreviation nConditional def :=
  (normalizeConditionalMap TracerFn getBuilder def tr).
Local Abbreviation element it := (normalizeElement TracerFn getBuilder it tr).
Local Abbreviation loop es acc := (normalizeElements TracerFn getBuilder es tr acc).
Local Abbreviation stage def := (stageBuilderNormalize TracerFn getBuilder def tr).

Section TotalRegistry.

Hypothesis map_builds : forall config, succeeds (opBuilder "map" config) = true.
Hypothesis check_builds : forall config, succeeds (opBuilder "check" config) = true.
Hypothesis chain_builds : forall ops, succeeds (chainBuilder ops) = true.

Lemma normalizeMapMembers_total (ms : list (string * DocumentValue))
    (acc : list Lifter) :
  succeeds (normalizeMapMembers TracerFn getBuilder ms tr acc) = true.
Proof.
  revert acc. induction ms as [|[k v] ms IH]; intros acc; simpl; [done|].
  specialize (map_builds (JObject [(k, deepCopy v)])).
  destruct (callOpBuilder _ _ "map" (JObject [(k, deepCopy v)]) tr); [|done].
  simpl. apply IH.
Qed.

Lemma normalizeMap_total (m : DocumentValue) : succeeds (nMap m) = okMap m.
Proof.
  unfold normalizeMap, okMap. destruct (IsObject m); simpl; [|done].
  destruct (MemberCount m) as [|n] eqn:Hn; simpl; [done|].
  assert (H := normalizeMapMembers_total (Members m) []).
  destruct (normalizeMapMembers _ _ _ tr []) as [ops|?]; [|done]. simpl.
  specialize (chain_builds ops).
  by destruct (callCombinatorBuilder _ _ _ ops).
Qed.

Lemma normalizeCheck_total (c : DocumentValue) : succeeds (nCheck c) = okCheck c.
Proof.
  unfold normalizeCheck, okCheck. destruct (IsArray c); simpl; [|done].
  destruct (Capacity c) as [|n] eqn:Hn; simpl; [done|].
  specialize (check_builds c).
  destruct (callOpBuilder _ _ "check" c tr) as [op|?]; [|done]. simpl.
  specialize (chain_builds [op]).
  by destruct (callCombinatorBuilder _ _ _ [op]).
Qed.

Lemma normalizeConditionalMap_total (d : DocumentValue) :
  succeeds (nConditional d)
  = (MemberCount d =? 2) && okCheck (member d "check") && okMap (member d "map").
Proof.
  unfold normalizeConditionalMap.
  destruct (MemberCount d =? 2); simpl; [|done].
  rewrite <- normalizeCheck_total, <- normalizeMap_total.
  destruct (normalizeCheck _ _ (member d "check") tr) as [c|?]; simpl; [|done].
  destruct (normalizeMap _ _ (member d "map") tr) as [m|?]; simpl; [|done].
  specialize (chain_builds [c; m]).
  by destruct (callCombinatorBuilder _ _ _ [c; m]).
Qed.

Lemma normalizeElement_total (it : DocumentValue) :
  succeeds (element it) = okElement it.
Proof.
  unfold normalizeElement, okElement, hasMap.
  destruct (IsObject it); simpl; [|done].
  destruct (HasMember it "map"); simpl; [|done].
  destruct (HasMember it "check").
  - apply normalizeConditionalMap_total.
  - apply normalizeMap_total.
Qed.

Lemma normalizeElements_total (es : list DocumentValue) :
  succeeds (loop es []) = forallb okElement es.
Proof.
  induction es as [|it es IH]; [done|].
  rewrite normalizeElements_cons. simpl.
  rewrite <- normalizeElement_total, <- IH.
  destruct (normalizeElement _ _ it tr); simpl; [|done].
  by destruct (normalizeElements _ _ es tr []).
Qed.

(** X7. With a registry whose map, check, chain and broadcast builders
    take whatever they are given, the stage builder returns a transformer
    exactly for the configurations that pass the checks of this file: an
    array, each element an object with a map that is an object of one
    member or more and, when the element has a check, an element of
    exactly two members whose check is an array of capacity not zero. *)
Theorem X7_stage_accepts (def : DocumentValue) :
  (forall ops, succeeds (broadcast ops) = true) ->
  succeeds (stage def) = accepts def.
Proof.
  intros Hb. rewrite stageBuilderNormalize_unfold. unfold accepts.
  destruct (IsArray def); simpl; [|done].
  rewrite <- normalizeElements_total.
  destruct (normalizeElements _ _ _ tr []) as [ops|?]; simpl; [|done].
  specialize (Hb (filterAll ops ++ [LPublish])).
  by destruct (callCombinatorBuilder _ _ _ _).
Qed.

End TotalRegistry.

(** X8. When the lookup of the broadcast combinator fails, the stage
    builder fails for every array whose elements build, the array of no
    element included: it throws a runtime error whose message holds the
    message of the failed lookup and whose nested cause is this failure.
    The lookup comes after the loop: when an element does not build, the
    exception is the one of the element. *)
Theorem X8_broadcast_not_registered (def : DocumentValue) (inner : Exception) :
  getBuilder "combinator.broadcast" = Throws inner ->
  IsArray def = true ->
  (Forall (fun x => succeeds (element x) = true) (Elements def) ->
   stage def = Throws (Exc RuntimeError (msgBuilding (what inner)) (Some inner)))
  /\ (forall pre it post e,
        Elements def = pre ++ it :: post ->
        Forall (fun x => succeeds (element x) = true) pre ->
        element it = Throws e ->
        stage def = Throws e).
Proof.
  intros Hb Ha. rewrite stageBuilderNormalize_unfold, Ha. simpl. split.
  - intros Hall. apply normalizeElements_succeeds in Hall.
    destruct (normalizeElements _ _ _ tr []) as [ops|?]; [|done]. simpl.
    unfold callCombinatorBuilder. by rewrite Hb.
  - intros pre it post e -> Hpre Hit.
    by rewrite (normalizeElements_Throws _ _ _ pre post it e [] Hpre Hit).
Qed.

(** X9. When the name of the map operation is bound to a combinator
    builder, normalizeMap fails on every object of one member or more:
    it throws a runtime error whose nested cause is the bad variant access
    of the selection of the operation builder. *)
Theorem X9_map_bound_to_a_combinator (ref : DocumentValue)
    (build : list Lifter -> Result Lifter) :
  getBuilder "map" = Returns (CombinatorBuilder build) ->
  okMap ref = true ->
  exists inner,
    class inner = BadVariantAccess /\ nested inner = None /\
    nMap ref = Throws (Exc RuntimeError (msgBuilding (what inner)) (Some inner)).
Proof.
  intros Hg [Ho Hc%Nat.ltb_lt]%andb_prop.
  exists (Exc BadVariantAccess "std::get: wrong index for variant" None).
  split; [done|]. split; [done|].
  unfold MemberCount in Hc.
  destruct (Members ref) as [|kv ms] eqn:Hms; [simpl in Hc; lia|].
  apply (normalizeMap_first_failure _ _ _ ref [] ms kv); [done|constructor|].
  unfold callOpBuilder. by rewrite Hg.
Qed.

(** X10. The transformer that the stage builder returns depends on the
    number of elements of the array only: two configurations of the same
    length for which it returns a transformer get the same transformer,
    and the same vector, whatever their maps and checks are. *)
Theorem X10_result_depends_on_length_only (def def' : DocumentValue)
    (r r' : list Lifter * Lifter) :
  stageBuilderNormalizeFrame TracerFn getBuilder def tr = Returns r ->
  stageBuilderNormalizeFrame TracerFn getBuilder def' tr = Returns r' ->
  length (Elements def) = length (Elements def') ->
  r = r'
  /\ fst r = (LFilterAll <$> seq 0 (length (Elements def))) ++ [LPublish].
Proof.
  unfold stageBuilderNormalizeFrame. intros H H' Hlen.
  destruct (IsArray def); simpl in H; [|done].
  destruct (IsArray def'); simpl in H'; [|done].
  destruct (normalizeElements _ _ (Elements def) tr []) as [ops|?] eqn:Hl;
    simpl in H; [|done].
  destruct (normalizeElements _ _ (Elements def') tr []) as [ops'|?] eqn:Hl';
    simpl in H'; [|done].
  apply normalizeElements_Returns, Forall2_length in Hl, Hl'.
  rewrite (filterAll_forgets ops' ops) in H' by lia.
  destruct (callCombinatorBuilder _ _ _ (filterAll ops ++ [LPublish])) as [l|?];
    simpl in H, H'; [|done].
  injection H as <-. injection H' as <-. split; [done|]. simpl.
  by rewrite filterAll_eq, Hl.
Qed.

(** X11. Whenever the array has one element or more and the broadcast is
    the combinator of the registry, the transformer that the stage builder
    returned produces nothing on a stream of one event or more: its first
    closure reads through its reference to a vector element, and the
    vector does not exist any more. *)
Theorem X11_no_output_with_branches (def : DocumentValue) (l : Lifter)
    (fuel : nat) (e : Event) (es : list Event) (st : Store) :
  getBuilder "combinator.broadcast"
    = Returns (CombinatorBuilder combinatorBuilderBroadcast) ->
  Elements def <> [] ->
  stageBuilderNormalize TracerFn getBuilder def tr = Returns l ->
  feed fuel afterReturn l (e :: es) st = Dangling.
Proof.
  intros Hb Hne Hl.
  by apply (returned_transformer_dangles TracerFn getBuilder tr Hb def l).
Qed.

End StageBuilder.

(** ** The conditional branch and the call sites that wrap *)

Section CallSites.

Variable TracerFn : Type.
Variable getBuilder : string -> Result (Builder TracerFn).
Variable tr : TracerFn.

Local Abbreviation opBuilder name def := (callOpBuilder TracerFn getBuilder name def tr).
Local Abbreviation chainBuilder ops :=
  (callCombinatorBuilder TracerFn getBuilder "combinator.chain" ops).
Local Abbreviation broadcast ops :=
  (callCombinatorBuilder TracerFn getBuilder "combinator.broadcast" ops).
Local Abbreviation nMap ref := (normalizeMap TracerFn getBuilder ref tr).
Local Abbreviation nCheck ref := (normalizeCheck TracerFn getBuilder ref tr).
Local Abbreviation nConditional def :=
  (normalizeConditionalMap TracerFn getBuilder def tr).
Local Abbreviation loop es acc := (normalizeElements TracerFn getBuilder es tr acc).
Local Abbreviation stage def := (stageBuilderNormalize TracerFn getBuilder def tr).

(** [e] thrown again by a handler of this file with the context [ctx]. *)
Local Abbreviation wrapped ctx e := (Exc RuntimeError (ctx (what e)) (Some e)).

(** X13. normalizeConditionalMap returns a transformer exactly when the
    entry has two members, normalizeCheck builds the value of its check,
    normalizeMap builds the value of its map, and the chain builder
    returns this transformer for the list of these two, the check half
    first. *)
Theorem X13_normalizeConditionalMap_returns_iff (def : DocumentValue) (l : Lifter) :
  nConditional def = Returns l <->
  MemberCount def = 2 /\
  exists c m,
    nCheck (member def "check") = Returns c /\
    nMap (member def "map") = Returns m /\
    chainBuilder [c; m] = Returns l.
Proof.
  split; [apply normalizeConditionalMap_Returns_inv|].
  intros (H2 & c & m & Hc & Hm & Hb).
  unfold normalizeConditionalMap. rewrite H2. simpl.
  rewrite Hc. simpl. rewrite Hm. simpl. by rewrite Hb.
Qed.

(** X14. Every call of a builder made inside a try block of this file is
    wrapped: when the callee throws, the caller throws a runtime error
    whose message is the context of the call site around the message of
    the callee's exception, and whose nested cause is this exception.
    This holds for the map builder (on each member) and the chain
    builder in normalizeMap, for the check builder and the chain builder
    in normalizeCheck, for normalizeCheck,
    normalizeMap and the chain builder in normalizeConditionalMap, and for
    the broadcast builder in the stage builder. *)
Theorem X14_call_sites_wrap :
  (forall ref pre kv post inner,
      Members ref = pre ++ kv :: post ->
      Forall (fun x =>
                succeeds (opBuilder "map" (JObject [(fst x, deepCopy (snd x))]))
                = true) pre ->
      opBuilder "map" (JObject [(fst kv, deepCopy (snd kv))]) = Throws inner ->
      nMap ref = Throws (wrapped msgBuilding inner))
  /\ (forall ref ops inner,
      okMap ref = true ->
      Forall2 (fun kv op =>
                 opBuilder "map" (JObject [(fst kv, deepCopy (snd kv))])
                 = Returns op) (Members ref) ops ->
      chainBuilder ops = Throws inner ->
      nMap ref = Throws (wrapped msgBuilding inner))
  /\ (forall ref inner,
        okCheck ref = true ->
        opBuilder "check" ref = Throws inner ->
        nCheck ref = Throws (wrapped msgBuilding inner))
  /\ (forall ref op inner,
        okCheck ref = true ->
        opBuilder "check" ref = Returns op ->
        chainBuilder [op] = Throws inner ->
        nCheck ref = Throws (wrapped msgBuilding inner))
  /\ (forall def inner,
        MemberCount def = 2 ->
        nCheck (member def "check") = Throws inner ->
        nConditional def = Throws (wrapped (msgConditionalSide "check") inner))
  /\ (forall def c inner,
        MemberCount def = 2 ->
        nCheck (member def "check") = Returns c ->
        nMap (member def "map") = Throws inner ->
        nConditional def = Throws (wrapped (msgConditionalSide "map") inner))
  /\ (forall def c m inner,
        MemberCount def = 2 ->
        nCheck (member def "check") = Returns c ->
        nMap (member def "map") = Returns m ->
        chainBuilder [c; m] = Throws inner ->
        nConditional def = Throws (wrapped msgConditionalBuilding inner))
  /\ (forall def ops inner,
        IsArray def = true ->
        loop (Elements def) [] = Returns ops ->
        broadcast ((LFilterAll <$> seq 0 (length ops)) ++ [LPublish])
        = Throws inner ->
        stage def = Throws (wrapped msgBuilding inner)).
Proof.
  repeat split.
  - intros ref pre kv post inner Hms Hpre Hkv.
    by apply (normalizeMap_first_failure _ _ _ ref pre post kv inner).
  - intros ref ops inner [Ho Hc%Nat.ltb_lt]%andb_prop Hall Hb.
    unfold normalizeMap. rewrite Ho. simpl.
    destruct (MemberCount ref <=? 0) eqn:Hn; [apply Nat.leb_le in Hn; lia|].
    assert (Hm : normalizeMapMembers TracerFn getBuilder (Members ref) tr []
                 = Returns ([] ++ ops))
      by (apply normalizeMapMembers_Returns; by exists ops).
    rewrite Hm. simpl. by rewrite Hb.
  - intros ref inner [Ha Hc%Nat.ltb_lt]%andb_prop Hb.
    unfold normalizeCheck. rewrite Ha. simpl.
    destruct (Capacity ref <=? 0) eqn:Hn; [apply Nat.leb_le in Hn; lia|].
    by rewrite Hb.
  - intros ref op inner [Ha Hc%Nat.ltb_lt]%andb_prop Hop Hb.
    unfold normalizeCheck. rewrite Ha. simpl.
    destruct (Capacity ref <=? 0) eqn:Hn; [apply Nat.leb_le in Hn; lia|].
    rewrite Hop. simpl. by rewrite Hb.
  - intros def inner H2 Hc. unfold normalizeConditionalMap.
    rewrite H2. simpl. by rewrite Hc.
  - intros def c inner H2 Hc Hm. unfold normalizeConditionalMap.
    rewrite H2. simpl. rewrite Hc. simpl. by rewrite Hm.
  - intros def c m inner H2 Hc Hm Hb. unfold normalizeConditionalMap.
    rewrite H2. simpl. rewrite Hc. simpl. rewrite Hm. simpl. by rewrite Hb.
  - intros def ops inner Ha Hl Hb.
    rewrite stageBuilderNormalize_unfold, Ha. simpl. rewrite Hl. simpl.
    by rewrite filterAll_eq, Hb.
Qed.

End CallSites.

(** X15. With the chain combinator in the registry, the branch that
    normalizeConditionalMap returns is the chain of the transformer of
    the check half and of the one of the map half and, run on an event
    for which the check half emits nothing, it leaves the store as the
    check half left it and emits nothing: the map half is not run
    (what a chain does when it is run is modelled from the spec). *)
Theorem X15_conditional_branch_short_circuit (TracerFn : Type)
    (getBuilder : string -> Result (Builder TracerFn)) (tr : TracerFn)
    (deref : nat -> Event -> Store -> Run (Store * list Event))
    (def : DocumentValue) (l c : Lifter) (e : Event) (st st1 : Store) :
  getBuilder "combinator.chain"
    = Returns (CombinatorBuilder combinatorBuilderChain) ->
  normalizeConditionalMap TracerFn getBuilder def tr = Returns l ->
  normalizeCheck TracerFn getBuilder (member def "check") tr = Returns c ->
  invokeWith deref c e st = Ran (st1, []) ->
  (exists m,
      normalizeMap TracerFn getBuilder (member def "map") tr = Returns m
      /\ l = LChain [c; m])
  /\ invokeWith deref l e st = Ran (st1, []).
Proof.
  intros Hchain Hl Hc Hdrop.
  destruct (normalizeConditionalMap_Returns_inv _ _ _ _ _ Hl)
    as (H2 & c' & m & Hc' & Hm & Hb).
  rewrite Hc in Hc'. injection Hc' as <-.
  unfold callCombinatorBuilder in Hb. rewrite Hchain in Hb. simpl in Hb.
  injection Hb as <-.
  split; [by exists m|]. by apply chain_first_drops.
Qed.

(** ** The further properties at concrete configurations *)

Lemma X1_normalizeMap_returns_iff_witness :
  normalizeMap unit Sample.registry Sample.mapWithSpare tt
  = Returns (LChain
      [LOperation (mapOperation Sample.literal
                     (JObject [("tags", JArray 1 [JString "t"])]))]).
Proof.
  apply (proj2 (X1_normalizeMap_returns_iff unit Sample.registry tt
                  Sample.mapWithSpare _)).
  split; [reflexivity|]. split; [vm_compute; lia|].
  eexists. split; [repeat constructor|reflexivity].
Defined.

Lemma X2_normalizeMap_first_failing_member_witness :
  normalizeMap unit Sample.pickyRegistry Sample.mapWithNull tt
  = Throws (Exc RuntimeError (msgBuilding "map: null value")
              (Some (Exc InvalidArgument "map: null value" None))).
Proof.
  exact (proj1 (X2_normalizeMap_first_failing_member unit Sample.pickyRegistry tt
                  Sample.mapWithNull [("a", JNumber 1)] [("b", JNumber 2)]
                  ("n", JNull) (Exc InvalidArgument "map: null value" None)
                  eq_refl ltac:(repeat constructor) eq_refl)).
Defined.

Lemma X3_normalizeMap_refuses_iff_witness :
  exists msg,
    normalizeMap unit Sample.pickyRegistry (JObject []) tt
    = Throws (Exc InvalidArgument msg None).
Proof.
  apply (proj2 (X3_normalizeMap_refuses_iff unit Sample.pickyRegistry tt
                  (JObject []))).
  right. reflexivity.
Defined.

Lemma X4_normalizeCheck_returns_iff_witness :
  normalizeCheck unit Sample.registry Sample.checkX tt = Returns Sample.branchX.
Proof.
  apply (proj2 (X4_normalizeCheck_returns_iff unit Sample.registry tt
                  Sample.checkX _)).
  split; [reflexivity|]. split; [vm_compute; lia|].
  eexists. split; reflexivity.
Defined.

Lemma X5_conditional_check_side_refused_witness :
  exists msg,
    (msg = msgCheckNotArray \/ msg = msgCheckEmpty) /\
    normalizeConditionalMap unit Sample.registry Sample.conditionalBothWrong tt
    = Throws (Exc RuntimeError (msgConditionalSide "check" msg)
                (Some (Exc InvalidArgument msg None))) /\
    stageBuilderNormalize unit Sample.registry
      (JArray 2 ([Sample.plainA] ++ Sample.conditionalBothWrong :: [])) tt
    = Throws (Exc RuntimeError (msgConditionalSide "check" msg)
                (Some (Exc InvalidArgument msg None))).
Proof.
  apply (X5_conditional_check_side_refused unit Sample.registry tt
           Sample.conditionalBothWrong 2 [Sample.plainA] []
           eq_refl eq_refl eq_refl eq_refl).
  repeat constructor.
Defined.

Lemma X6_builder_failure_wrapped_twice_witness :
  stageBuilderNormalize unit Sample.pickyRegistry
    (JArray 2 ([Sample.plainA] ++ Sample.conditionalWithNull :: [])) tt
  = Throws
      (Exc RuntimeError
         (msgConditionalSide "map" (msgBuilding "map: null value"))
         (Some (Exc RuntimeError (msgBuilding "map: null value")
                  (Some (Exc InvalidArgument "map: null value" None))))).
Proof.
  exact (proj1 (X6_builder_failure_wrapped_twice unit Sample.pickyRegistry tt
                  Sample.conditionalWithNull Sample.branchX
                  [("a", JNumber 1)] [("b", JNumber 2)] ("n", JNull)
                  (Exc InvalidArgument "map: null value" None)
                  2 [Sample.plainA] []
                  eq_refl eq_refl eq_refl eq_refl eq_refl
                  ltac:(repeat constructor) eq_refl
                  ltac:(repeat constructor))).
Defined.

Lemma X7_stage_accepts_witness :
  succeeds (stageBuilderNormalize unit Sample.totalRegistry
              (Sample.array [Sample.plainA; Sample.conditionalReserved]) tt)
  = true
  /\ succeeds (stageBuilderNormalize unit Sample.totalRegistry
                 (Sample.array [Sample.plainA; Sample.conditionalThree]) tt)
     = false.
Proof.
  split.
  - exact (X7_stage_accepts unit Sample.totalRegistry tt
             (fun _ => eq_refl) (fun _ => eq_refl) (fun _ => eq_refl)
             (Sample.array [Sample.plainA; Sample.conditionalReserved])
             (fun _ => eq_refl)).
  - exact (X7_stage_accepts unit Sample.totalRegistry tt
             (fun _ => eq_refl) (fun _ => eq_refl) (fun _ => eq_refl)
             (Sample.array [Sample.plainA; Sample.conditionalThree])
             (fun _ => eq_refl)).
Defined.

Lemma X8_broadcast_not_registered_witness :
  stageBuilderNormalize unit Sample.noBroadcastRegistry (JArray 0 []) tt
  = Throws (Exc RuntimeError (msgBuilding "combinator.broadcast")
              (Some (Exc (OtherException "NotFound") "combinator.broadcast"
                       None))).
Proof.
  apply (proj1 (X8_broadcast_not_registered unit Sample.noBroadcastRegistry tt
                  (JArray 0 [])
                  (Exc (OtherException "NotFound") "combinator.broadcast" None)
                  eq_refl eq_refl)).
  constructor.
Defined.

Lemma X9_map_bound_to_a_combinator_witness :
  exists inner,
    class inner = BadVariantAccess /\ nested inner = None /\
    normalizeMap unit Sample.mapAsCombinatorRegistry Sample.mapA tt
    = Throws (Exc RuntimeError (msgBuilding (what inner)) (Some inner)).
Proof.
  exact (X9_map_bound_to_a_combinator unit Sample.mapAsCombinatorRegistry tt
           Sample.mapA combinatorBuilderChain eq_refl eq_refl).
Defined.

Lemma X10_result_depends_on_length_only_witness :
  stageBuilderNormalizeFrame unit Sample.registry
    (Sample.array [Sample.plainA; Sample.plainB]) tt
  = stageBuilderNormalizeFrame unit Sample.registry
      (Sample.array [Sample.conditionalB; Sample.plainWithExtras]) tt.
Proof.
  exact (f_equal Returns
           (proj1 (X10_result_depends_on_length_only unit Sample.registry tt
                     (Sample.array [Sample.plainA; Sample.plainB])
                     (Sample.array [Sample.conditionalB; Sample.plainWithExtras])
                     ([LFilterAll 0; LFilterAll 1; LPublish],
                      LBroadcast [LFilterAll 0; LFilterAll 1; LPublish])
                     ([LFilterAll 0; LFilterAll 1; LPublish],
                      LBroadcast [LFilterAll 0; LFilterAll 1; LPublish])
                     eq_refl eq_refl eq_refl))).
Defined.

Lemma X11_no_output_with_branches_witness :
  feed 7 afterReturn (LBroadcast [LFilterAll 0; LFilterAll 1; LPublish])
       [0; 1] [JObject []; JObject []] = Dangling.
Proof.
  apply (X11_no_output_with_branches unit Sample.registry tt
           (Sample.array [Sample.plainA; Sample.conditionalB])
           (LBroadcast [LFilterAll 0; LFilterAll 1; LPublish])
           7 0 [1] [JObject []; JObject []] eq_refl).
  - discriminate.
  - reflexivity.
Defined.

Lemma X13_normalizeConditionalMap_returns_iff_witness :
  normalizeConditionalMap unit Sample.registry Sample.conditionalB tt
  = Returns (LChain [Sample.branchX; Sample.branchB]).
Proof.
  apply (proj2 (X13_normalizeConditionalMap_returns_iff unit Sample.registry tt
                  Sample.conditionalB _)).
  split; [reflexivity|].
  exists Sample.branchX, Sample.branchB. repeat split.
Defined.

Lemma X14_call_sites_wrap_witness :
  normalizeConditionalMap unit Sample.registry Sample.conditionalEmptyMap tt
  = Throws (Exc RuntimeError (msgConditionalSide "map" msgMapEmpty)
              (Some (Exc InvalidArgument msgMapEmpty None)))
  /\ normalizeCheck unit Sample.registry Sample.reservedEmpty tt
     = Throws (Exc RuntimeError
                 (msgBuilding "check: expected a non-empty array")
                 (Some (Exc InvalidArgument "check: expected a non-empty array"
                          None))).
Proof.
  destruct (X14_call_sites_wrap unit Sample.registry tt)
    as (_ & _ & H2 & _ & _ & H5 & _).
  split.
  - exact (H5 Sample.conditionalEmptyMap Sample.branchX
              (Exc InvalidArgument msgMapEmpty None) eq_refl eq_refl eq_refl).
  - exact (H2 Sample.reservedEmpty
              (Exc InvalidArgument "check: expected a non-empty array" None)
              eq_refl eq_refl).
Defined.

Lemma X15_conditional_branch_short_circuit_witness :
  invokeWith (derefIn 0 afterReturn) (LChain [Sample.branchX; Sample.branchB])
    0 [JObject [("a", JNumber 1)]]
  = Ran ([JObject [("a", JNumber 1)]], []).
Proof.
  exact (proj2 (X15_conditional_branch_short_circuit unit Sample.registry tt
                  (derefIn 0 afterReturn) Sample.conditionalB
                  (LChain [Sample.branchX; Sample.branchB]) Sample.branchX
                  0 [JObject [("a", JNumber 1)]] [JObject [("a", JNumber 1)]]
                  eq_refl eq_refl eq_refl eq_refl)).
Defined.
